(** * stock_analysis: metrics registry, trial-based optimizer and genetic optimizer

    A shallow embedding of
      - [src/strategies/metrics.py]          (metric functions and the two registries),
      - [src/strategies/base_strategy.py]    ([BaseStrategy.calculate_metrics]),
      - [src/strategies/optimization.py]     ([StrategyOptimizer], [MultiObjectiveOptimizer]),
      - [src/experimental_algorithms/genetic_strategy.py] ([GeneticStrategy]),
    followed by the properties of the specification that were checked against it.

    Python floats are IEEE 754 binary64 numbers; they are modelled by the
    Standard Library's executable specification [spec_float] instantiated at
    precision 53 and maximal exponent 1024.  Exceptions are values of [Exn]
    carried by the result type [Res]. *)

From Stdlib Require Import ZArith List String Bool Lia.
From Stdlib Require Import Floats.SpecFloat.
From stdpp Require Import gmap strings list pretty.

Local Open Scope Z_scope.
Local Open Scope string_scope.
Local Open Scope list_scope.

(** ** Python floats (binary64) *)

Module F.

Definition prec : Z := 53.
Definition emax : Z := 1024.

Abbreviation float := spec_float.

Definition add : float -> float -> float := SFadd prec emax.
Definition sub : float -> float -> float := SFsub prec emax.
Definition mul : float -> float -> float := SFmul prec emax.
Definition div : float -> float -> float := SFdiv prec emax.
Definition sqrt : float -> float := SFsqrt prec emax.
Definition abs : float -> float := SFabs.
Definition opp : float -> float := SFopp.

(** [float(z)] for an integer [z] (rounded to nearest even). *)
Definition of_Z (z : Z) : float := binary_normalize prec emax z 0 false.
Definition of_nat (n : nat) : float := of_Z (Z.of_nat n).

Definition zero : float := S754_zero false.
Definition one : float := Eval vm_compute in of_Z 1.
Definition half : float := Eval vm_compute in div (of_Z 1) (of_Z 2).
Definition inf : float := S754_infinity false.
Definition neg_inf : float := S754_infinity true.
Definition nan : float := S754_nan.

Definition is_nan (x : float) : bool :=
  match x with S754_nan => true | _ => false end.

(** Python's comparison operators on floats: every comparison with a NaN
    is [False], except [!=], which is [True]. *)
Definition ltb (x y : float) : bool := SFltb x y.
Definition leb (x y : float) : bool := SFleb x y.
Definition gtb (x y : float) : bool := SFltb y x.
Definition eqb (x y : float) : bool := SFeqb x y.
Definition neb (x y : float) : bool := negb (SFeqb x y).

(** A finite, non-zero number. *)
Definition is_finite_nonzero (x : float) : bool :=
  match x with S754_finite _ _ _ => true | _ => false end.

End F.

Abbreviation float := spec_float.

(** ** Exceptions and results *)

Inductive Exn : Type :=
| ValueError (msg : string)
| KeyError (key : string)
| AttributeError (msg : string)
| IndexError (msg : string)
| TypeError (msg : string)
| NotImplementedError (msg : string)
| RuntimeError (msg : string).

Inductive Res (A : Type) : Type :=
| Ok (a : A)
| Raise (e : Exn).
Arguments Ok {A} a.
Arguments Raise {A} e.

#[global] Instance Res_ret : MRet Res := fun A a => Ok a.
#[global] Instance Res_bind : MBind Res := fun A B f m =>
  match m with
  | Ok a => f a
  | Raise e => Raise e
  end.

Definition is_ok {A} (r : Res A) : bool :=
  match r with Ok _ => true | Raise _ => false end.

(** ** pandas: the fragment of [Series] and [DataFrame] the metrics use

    A [Series] of floats is the list of its values; a [DataFrame] maps column
    names to series.  Reductions skip NaN entries, as pandas does by default. *)

Abbreviation Series := (list float).
Abbreviation DataFrame := (gmap string Series).

(** [col in df.columns] *)
Definition in_columns (col : string) (df : DataFrame) : bool :=
  bool_decide (is_Some (df !! col)).

(** [df[col]] *)
Definition getitem (df : DataFrame) (col : string) : Res Series :=
  match df !! col with
  | Some s => Ok s
  | None => Raise (KeyError col)
  end.

Definition dropna (s : Series) : Series :=
  List.filter (fun x => negb (F.is_nan x)) s.

(** [s > c] and [s < c], element by element. *)
Definition Series_gt (s : Series) (c : float) : list bool := map (fun x => F.gtb x c) s.
Definition Series_lt (s : Series) (c : float) : list bool := map (fun x => F.ltb x c) s.

(** [s[mask]]: the entries of [s] where the boolean mask is [True]. *)
Fixpoint boolean_index (s : Series) (mask : list bool) : Series :=
  match s, mask with
  | x :: s', b :: mask' =>
      if b then x :: boolean_index s' mask' else boolean_index s' mask'
  | _, _ => []
  end.

(** [mask.sum()]: the number of [True] entries. *)
Definition mask_sum (mask : list bool) : nat := length (List.filter (fun b : bool => b) mask).

(** [s.sum()]; the sum of an empty series is [0.0]. *)
Definition Series_sum (s : Series) : float := fold_left F.add (dropna s) F.zero.

(** [s.mean()]; NaN on a series without valid entries. *)
Definition Series_mean (s : Series) : float :=
  F.div (Series_sum s) (F.of_nat (length (dropna s))).

(** [s.std()], the sample standard deviation (one degree of freedom removed). *)
Definition Series_std (s : Series) : float :=
  let v := dropna s in
  let m := Series_mean v in
  let sq := map (fun x => F.mul (F.sub x m) (F.sub x m)) v in
  F.sqrt (F.div (fold_left F.add sq F.zero) (F.of_Z (Z.of_nat (length v) - 1))).

(** [s.min()]; NaN on a series without valid entries. *)
Definition Series_min (s : Series) : float :=
  match dropna s with
  | [] => F.nan
  | x :: v => fold_left (fun m y => if F.ltb y m then y else m) v x
  end.

Definition Series_abs (s : Series) : Series := map F.abs s.

(** [s.cumprod()]: NaN entries count as [1.0] in the running product and
    stay NaN in the result. *)
Fixpoint np_cumprod_from (acc : float) (l : list float) : list float :=
  match l with
  | [] => []
  | x :: t => let a := F.mul acc x in a :: np_cumprod_from a t
  end.

Definition np_cumprod (l : list float) : list float :=
  match l with
  | [] => []
  | x :: t => x :: np_cumprod_from x t
  end.

Definition Series_cumprod (s : Series) : Series :=
  let y := map (fun v => if F.is_nan v then F.one else v) s in
  zip_with (fun v p => if F.is_nan v then F.nan else p) s (np_cumprod y).

(** [s.expanding().max()]: the running maximum of the valid entries seen so
    far (at least one is required). *)
Fixpoint expanding_max_from (peak : option float) (s : Series) : Series :=
  match s with
  | [] => []
  | x :: t =>
      let peak' :=
        if F.is_nan x then peak
        else match peak with
             | None => Some x
             | Some p => Some (if F.ltb p x then x else p)
             end in
      match peak' with
      | None => F.nan :: expanding_max_from peak' t
      | Some p => p :: expanding_max_from peak' t
      end
  end.

Definition expanding_max (s : Series) : Series := expanding_max_from None s.

(** ** metrics.py *)

Inductive MetricCategory : Type := RETURNS | RISK | RATIOS | TRADES | POSITION.

(** [np.sqrt(252)] *)
Definition sqrt_252 : float := Eval vm_compute in F.sqrt (F.of_Z 252).

Definition calculate_sharpe_ratio (df : DataFrame) : Res float :=
  returns ← getitem df "returns";
  if (length returns <? 2)%nat then Ok F.zero
  else Ok (F.div (F.mul sqrt_252 (Series_mean returns)) (Series_std returns)).

Definition calculate_sortino_ratio (df : DataFrame) : Res float :=
  returns ← getitem df "returns";
  if (length returns <? 2)%nat then Ok F.zero
  else
    let downside_returns := boolean_index returns (Series_lt returns F.zero) in
    if (length downside_returns =? 0)%nat then Ok F.inf
    else Ok (F.div (F.mul sqrt_252 (Series_mean returns)) (Series_std downside_returns)).

Definition calculate_max_drawdown (df : DataFrame) : Res float :=
  returns ← getitem df "returns";
  let cumulative_returns := Series_cumprod (map (F.add F.one) returns) in
  let rolling_max := expanding_max cumulative_returns in
  let drawdowns :=
    map (fun q => F.sub q F.one) (zip_with F.div cumulative_returns rolling_max) in
  Ok (F.abs (Series_min drawdowns)).

(** The guard shared by the three per-trade metrics:
    ['trade_returns' not in df.columns or len(df['trade_returns']) == 0]. *)
Definition no_trade_returns (df : DataFrame) : Res bool :=
  if negb (in_columns "trade_returns" df) then Ok true
  else tr ← getitem df "trade_returns"; Ok (length tr =? 0)%nat.

Definition calculate_win_rate (df : DataFrame) : Res float :=
  guard ← no_trade_returns df;
  if guard : bool then Ok F.zero
  else
    tr ← getitem df "trade_returns";
    let winning_trades := mask_sum (Series_gt tr F.zero) in
    let total_trades := length (dropna tr) in
    if (0 <? total_trades)%nat
    then Ok (F.div (F.of_nat winning_trades) (F.of_nat total_trades))
    else Ok F.zero.

Definition calculate_profit_factor (df : DataFrame) : Res float :=
  guard ← no_trade_returns df;
  if guard : bool then Ok F.zero
  else
    tr ← getitem df "trade_returns";
    let gains := Series_sum (boolean_index tr (Series_gt tr F.zero)) in
    let losses := F.abs (Series_sum (boolean_index tr (Series_lt tr F.zero))) in
    if F.neb losses F.zero then Ok (F.div gains losses) else Ok F.inf.

Definition calculate_average_trade (df : DataFrame) : Res float :=
  guard ← no_trade_returns df;
  if guard : bool then Ok F.zero
  else tr ← getitem df "trade_returns"; Ok (Series_mean tr).

Definition calculate_average_position_size (df : DataFrame) : Res float :=
  if negb (in_columns "position_size" df) then Ok F.zero
  else ps ← getitem df "position_size"; Ok (Series_mean (Series_abs ps)).

(** *** The static methods of the class [Metrics], on series *)

(** [s <= c], element by element. *)
Definition Series_le (s : Series) (c : float) : list bool := map (fun x => F.leb x c) s.

(** [Metrics.calculate_sortino_ratio] *)
Definition Metrics_calculate_sortino_ratio (returns : Series) (risk_free_rate : float)
    : float :=
  let excess_returns := map (fun x => F.sub x risk_free_rate) returns in
  let downside_returns :=
    boolean_index excess_returns (Series_lt excess_returns F.zero) in
  if (length downside_returns =? 0)%nat then F.inf
  else F.div (F.mul sqrt_252 (Series_mean excess_returns)) (Series_std downside_returns).

(** [Metrics.calculate_max_drawdown] *)
Definition Metrics_calculate_max_drawdown (prices : Series) : float :=
  let peak := expanding_max prices in
  let drawdown := zip_with (fun v p => F.div (F.sub v p) p) prices peak in
  Series_min drawdown.

(** [Metrics.calculate_win_rate]: the mean of a boolean series counts
    every entry. *)
Definition Metrics_calculate_win_rate (returns : Series) : float :=
  F.div (F.of_nat (mask_sum (Series_gt returns F.zero))) (F.of_nat (length returns)).

(** [Metrics.calculate_profit_factor] *)
Definition Metrics_calculate_profit_factor (returns : Series) : float :=
  let gains := Series_sum (boolean_index returns (Series_gt returns F.zero)) in
  let losses := F.abs (Series_sum (boolean_index returns (Series_lt returns F.zero))) in
  if F.neb losses F.zero then F.div gains losses else F.inf.

(** [Metrics.calculate_expectancy] *)
Definition Metrics_calculate_expectancy (returns : Series) : float := Series_mean returns.

(** [Metrics.calculate_omega_ratio] *)
Definition Metrics_calculate_omega_ratio (returns : Series) (threshold : float) : float :=
  let gains := Series_sum (boolean_index returns (Series_gt returns threshold)) in
  let losses := F.abs (Series_sum (boolean_index returns (Series_le returns threshold))) in
  if F.neb losses F.zero then F.div gains losses else F.inf.

(** *** Dataclass instances

    [Metric] and [OptimizationObjective] are dataclasses.  Their instances
    are modelled as Python objects: a class name and an attribute
    dictionary, read with [getattr], which raises [AttributeError] for a
    name the instance does not have. *)

Inductive Attr : Type :=
| AStr (s : string)
| ACategory (c : MetricCategory)
| ABool (b : option bool)
| AColumns (l : list string)
| AFunction (f : DataFrame -> Res float).

Record PyObject : Type := {
  class_name : string;
  attributes : gmap string Attr
}.

Definition getattr (o : PyObject) (name : string) : Res Attr :=
  match attributes o !! name with
  | Some a => Ok a
  | None =>
      Raise (AttributeError
               ("'" +:+ class_name o +:+ "' object has no attribute '" +:+ name +:+ "'"))
  end.

(** Iterating over an attribute inside a list comprehension. *)
Definition iterate (a : Attr) : Res (list string) :=
  match a with
  | AColumns l => Ok l
  | AStr s => Ok (map (fun c => String c EmptyString) (list_ascii_of_string s))
  | ABool _ => Raise (TypeError "object is not iterable")
  | ACategory _ => Raise (TypeError "'MetricCategory' object is not iterable")
  | AFunction _ => Raise (TypeError "'function' object is not iterable")
  end.

(** Calling an attribute on a data frame. *)
Definition call (a : Attr) (df : DataFrame) : Res float :=
  match a with
  | AFunction f => f df
  | _ => Raise (TypeError "object is not callable")
  end.

Definition Metric (name description : string) (category : MetricCategory)
    (higher_is_better : option bool) (requires_columns : list string)
    (calculation_function : DataFrame -> Res float) : PyObject :=
  {| class_name := "Metric";
     attributes :=
       <["name" := AStr name]>
       (<["description" := AStr description]>
       (<["category" := ACategory category]>
       (<["higher_is_better" := ABool higher_is_better]>
       (<["requires_columns" := AColumns requires_columns]>
       (<["calculation_function" := AFunction calculation_function]> ∅))))) |}.

Definition OptimizationObjective (name description : string)
    (higher_is_better : bool) (metric_name : string) : PyObject :=
  {| class_name := "OptimizationObjective";
     attributes :=
       <["name" := AStr name]>
       (<["description" := AStr description]>
       (<["higher_is_better" := ABool (Some higher_is_better)]>
       (<["metric_name" := AStr metric_name]> ∅))) |}.

(** A registry is a dictionary literal: its keys in source order. *)
Definition Registry : Type := list (string * PyObject).

Fixpoint registry_get (r : Registry) (key : string) : option PyObject :=
  match r with
  | [] => None
  | (k, o) :: r' => if String.eqb k key then Some o else registry_get r' key
  end.

Definition registry_keys (r : Registry) : list string := map fst r.

Definition AVAILABLE_METRICS : Registry :=
  [ ("sharpe_ratio",
     Metric "Sharpe Ratio" "Risk-adjusted return using standard deviation of returns"
       RATIOS (Some true) ["returns"] calculate_sharpe_ratio);
    ("sortino_ratio",
     Metric "Sortino Ratio" "Risk-adjusted return using downside deviation"
       RATIOS (Some true) ["returns"] calculate_sortino_ratio);
    ("max_drawdown",
     Metric "Maximum Drawdown" "Maximum peak to trough decline"
       RISK (Some false) ["returns"] calculate_max_drawdown);
    ("win_rate",
     Metric "Win Rate" "Percentage of winning trades"
       TRADES (Some true) ["trade_returns"] calculate_win_rate);
    ("profit_factor",
     Metric "Profit Factor" "Ratio of gross profits to gross losses"
       TRADES (Some true) ["trade_returns"] calculate_profit_factor);
    ("average_trade",
     Metric "Average Trade" "Average return per trade"
       TRADES (Some true) ["trade_returns"] calculate_average_trade);
    ("average_position_size",
     Metric "Average Position Size" "Average absolute position size"
       POSITION None ["position_size"] calculate_average_position_size) ].

Definition OPTIMIZATION_OBJECTIVES : Registry :=
  [ ("sharpe_ratio",
     OptimizationObjective "Maximize Sharpe Ratio" "Optimize for risk-adjusted returns"
       true "sharpe_ratio");
    ("sortino_ratio",
     OptimizationObjective "Maximize Sortino Ratio"
       "Optimize for downside risk-adjusted returns" true "sortino_ratio");
    ("max_drawdown",
     OptimizationObjective "Minimize Maximum Drawdown" "Optimize for capital preservation"
       false "max_drawdown");
    ("profit_factor",
     OptimizationObjective "Maximize Profit Factor" "Optimize for trade profitability"
       true "profit_factor") ].

(** ** base_strategy.py *)

(** [s.shift(1)] *)
Definition shift1 (s : Series) : Series :=
  match s with
  | [] => []
  | _ => F.nan :: removelast s
  end.

(** Forward fill, the default treatment of missing values in [pct_change]. *)
Fixpoint ffill_from (last : float) (s : Series) : Series :=
  match s with
  | [] => []
  | x :: t => let y := if F.is_nan x then last else x in y :: ffill_from y t
  end.

(** [s.pct_change()] *)
Definition pct_change (s : Series) : Series :=
  let filled := ffill_from F.nan s in
  map (fun q => F.sub q F.one) (zip_with F.div filled (shift1 filled)).

(** The state of a [BaseStrategy] instance.  [performance_metrics] maps a
    metric name to its value, or to [None] when its computation failed. *)
Record BaseStrategy : Type := {
  symbol : string;
  data : option DataFrame;
  performance_metrics : gmap string (option float)
}.

Definition BaseStrategy_init (symbol : string) : BaseStrategy :=
  {| symbol := symbol; data := None; performance_metrics := ∅ |}.

Definition with_data (self : BaseStrategy) (df : DataFrame) : BaseStrategy :=
  {| symbol := symbol self; data := Some df;
     performance_metrics := performance_metrics self |}.

Definition with_metric (self : BaseStrategy) (name : string) (v : option float)
    : BaseStrategy :=
  {| symbol := symbol self; data := data self;
     performance_metrics := <[name := v]> (performance_metrics self) |}.

(** A method that may raise after having changed the instance: the state
    is returned in both cases. *)
Definition Method (S A : Type) : Type := S -> Res A * S.

(** Lines 31-35: the two derived columns are added when they are absent. *)
Definition add_return_columns (df : DataFrame) : Res DataFrame :=
  df1 ← (if negb (in_columns "Returns" df)
         then close ← getitem df "Close"; Ok (<["Returns" := pct_change close]> df)
         else Ok df);
  if negb (in_columns "Strategy_Returns" df1)
  then signal ← getitem df1 "Signal";
       returns ← getitem df1 "Returns";
       Ok (<["Strategy_Returns" := zip_with F.mul (shift1 signal) returns]> df1)
  else Ok df1.

(** Python's [repr] of a list of strings, as printed inside an f-string. *)
Fixpoint join (sep : string) (l : list string) : string :=
  match l with
  | [] => ""
  | [x] => x
  | x :: t => x +:+ sep +:+ join sep t
  end.

Definition repr_list (l : list string) : string :=
  "[" +:+ join ", " (map (fun s => "'" +:+ s +:+ "'") l) +:+ "]".

(** One iteration of the loop of lines 42-58, for [metric_name]. *)
Definition calculate_metric (registry : Registry) (metric_name : string)
    : Method BaseStrategy unit :=
  fun self =>
    match registry_get registry metric_name with
    | None => (Raise (ValueError ("Unknown metric: " +:+ metric_name)), self)
    | Some metric =>
        let df := default ∅ (data self) in
        match (requires ← getattr metric "requires";
               cols ← iterate requires;
               Ok (List.filter (fun col => negb (in_columns col df)) cols)) with
        | Raise e => (Raise e, self)
        | Ok ((_ :: _) as missing_columns) =>
            (Raise (ValueError ("Missing required columns for " +:+ metric_name
                                +:+ ": " +:+ repr_list missing_columns)), self)
        | Ok [] =>
            match (f ← getattr metric "function"; call f df) with
            | Ok v => (Ok (), with_metric self metric_name (Some v))
            | Raise _ => (Ok (), with_metric self metric_name None)
            end
        end
    end.

Fixpoint calculate_metrics_loop (registry : Registry) (metrics_list : list string)
    : Method BaseStrategy unit :=
  fun self =>
    match metrics_list with
    | [] => (Ok (), self)
    | metric_name :: rest =>
        match calculate_metric registry metric_name self with
        | (Ok _, self') => calculate_metrics_loop registry rest self'
        | (Raise e, self') => (Raise e, self')
        end
    end.

(** [BaseStrategy.calculate_metrics], over an arbitrary metric registry. *)
Definition calculate_metrics_with (registry : Registry)
    (metrics_list : option (list string))
    : Method BaseStrategy (gmap string (option float)) :=
  fun self =>
    match data self with
    | None => (Raise (ValueError "Strategy must be run before calculating metrics"), self)
    | Some df =>
        if negb (in_columns "Signal" df)
        then (Raise (ValueError "Strategy must be run before calculating metrics"), self)
        else
          match add_return_columns df with
          | Raise e => (Raise e, self)
          | Ok df' =>
              let self1 := with_data self df' in
              let metrics_list := default (registry_keys registry) metrics_list in
              match calculate_metrics_loop registry metrics_list self1 with
              | (Ok _, self2) => (Ok (performance_metrics self2), self2)
              | (Raise e, self2) => (Raise e, self2)
              end
        end
    end.

(** [BaseStrategy.calculate_metrics] as the module defines it, over
    [AVAILABLE_METRICS]. *)
Definition calculate_metrics := calculate_metrics_with AVAILABLE_METRICS.


(** ** optimization.py *)

(** Parameter values and bound descriptors are dynamically typed. *)
#[warnings="-register-all"]
Inductive PyVal : Type :=
| VNone
| VBool (b : bool)
| VInt (z : Z)
| VFloat (f : float)
| VStr (s : string)
| VList (l : list PyVal)
| VDict (d : list (string * PyVal)).

(** A parameters dictionary, in insertion order. *)
Definition Parameters : Type := list (string * PyVal).

(** An instance of a strategy class: the [BaseStrategy] state and the
    attributes the subclass adds. *)
Record Strategy : Type := {
  base : BaseStrategy;
  extra : gmap string PyVal
}.

(** A concrete subclass of [BaseStrategy], as the optimizers use it: its
    constructor and the methods it has to supply.  [calculate_metrics] is the
    inherited one. *)
Record StrategyClass : Type := {
  construct : string -> Res Strategy;
  get_optimization_bounds : Strategy -> Res (list (string * (string * list PyVal)));
  set_parameters : Parameters -> Method Strategy unit;
  run_strategy : Method Strategy unit
}.

Definition Strategy_calculate_metrics (metrics_list : option (list string))
    : Method Strategy (gmap string (option float)) :=
  fun s =>
    let '(r, b) := calculate_metrics metrics_list (base s) in
    (r, {| base := b; extra := extra s |}).

(** *** optuna: the fragment the optimizers use

    A study has one direction per objective and records the trials it ran.
    The values a trial suggests come from the study's sampler, an
    oracle here: [suggest number kind name args]. *)

Inductive StudyDirection : Type := MINIMIZE | MAXIMIZE.
Inductive TrialState : Type := COMPLETE | FAIL.

Record Trial : Type := {
  number : nat;
  user_attrs : gmap string (option float)
}.

Record FrozenTrial : Type := {
  trial : Trial;
  state : TrialState;
  values : list float
}.

Record Study : Type := {
  directions : list StudyDirection;
  trials : list FrozenTrial
}.

Definition parse_direction (d : string) : Res StudyDirection :=
  if String.eqb d "minimize" then Ok MINIMIZE
  else if String.eqb d "maximize" then Ok MAXIMIZE
  else Raise (ValueError "Please set either 'minimize' or 'maximize' to direction.").

Fixpoint parse_directions (ds : list string) : Res (list StudyDirection) :=
  match ds with
  | [] => Ok []
  | d :: ds' => x ← parse_direction d; xs ← parse_directions ds'; Ok (x :: xs)
  end.

(** [optuna.create_study(direction=d)] *)
Definition create_study (direction : string) : Res Study :=
  d ← parse_direction direction; Ok {| directions := [d]; trials := [] |}.

(** [optuna.create_study(directions=ds)] *)
Definition create_study_multi (ds : list string) : Res Study :=
  match ds with
  | [] => Raise (ValueError "The number of objectives must be greater than 0.")
  | _ => xs ← parse_directions ds; Ok {| directions := xs; trials := [] |}
  end.

Definition add_trial (study : Study) (t : FrozenTrial) : Study :=
  {| directions := directions study; trials := trials study ++ [t] |}.

(** What the study records for the values an objective returned: the trial
    is complete when there is one number per direction and none is [None]
    or NaN, and failed otherwise; the loop goes on in both cases. *)
Fixpoint all_numbers (vs : list (option float)) : option (list float) :=
  match vs with
  | [] => Some []
  | Some v :: vs' =>
      if F.is_nan v then None
      else match all_numbers vs' with Some l => Some (v :: l) | None => None end
  | None :: _ => None
  end.

Definition tell (study : Study) (t : Trial) (vs : list (option float)) : Study :=
  match all_numbers vs with
  | Some l =>
      if (length l =? length (directions study))%nat
      then add_trial study {| trial := t; state := COMPLETE; values := l |}
      else add_trial study {| trial := t; state := FAIL; values := [] |}
  | None => add_trial study {| trial := t; state := FAIL; values := [] |}
  end.

(** [study.optimize(objective, n_trials=n)]: the trials run one after the
    other; an exception raised by the objective marks its trial failed and
    leaves the loop. *)
Fixpoint study_optimize (objective : Trial -> Res (list (option float)) * Trial)
    (n_trials : nat) : Method Study unit :=
  fun study =>
    match n_trials with
    | O => (Ok (), study)
    | S n =>
        let t := {| number := length (trials study); user_attrs := ∅ |} in
        match objective t with
        | (Ok vs, t') => study_optimize objective n (tell study t' vs)
        | (Raise e, t') =>
            (Raise e, add_trial study {| trial := t'; state := FAIL; values := [] |})
        end
    end.

(** [study.best_trial] of a single-objective study: the first complete trial
    whose value no other complete trial improves on. *)
Definition better (d : StudyDirection) (x y : float) : bool :=
  match d with
  | MAXIMIZE => F.gtb x y
  | MINIMIZE => F.ltb x y
  end.

Definition trial_value (t : FrozenTrial) : float := hd F.nan (values t).

Definition best_trial (study : Study) : option FrozenTrial :=
  let d := hd MINIMIZE (directions study) in
  let complete :=
    List.filter (fun t => match state t with COMPLETE => true | FAIL => false end)
      (trials study) in
  match complete with
  | [] => None
  | t :: ts =>
      Some (fold_left
              (fun best t' => if better d (trial_value t') (trial_value best)
                              then t' else best) ts t)
  end.

Section Optimizers.

(** The sampler of the study: trial number, kind of suggestion, parameter
    name and arguments. *)
Variable suggest : nat -> string -> string -> list PyVal -> Res PyVal.

Record StrategyOptimizer : Type := {
  strategy_class : StrategyClass;
  opt_symbol : string;
  objective_name : string;
  objective_function : PyObject;
  additional_metrics : list string
}.

(** [StrategyOptimizer.__init__] *)
Definition StrategyOptimizer_init (strategy_class : StrategyClass) (symbol : string)
    (objective_name : string) (additional_metrics : option (list string))
    : Res StrategyOptimizer :=
  match registry_get OPTIMIZATION_OBJECTIVES objective_name with
  | None => Raise (ValueError ("Unknown optimization objective: " +:+ objective_name))
  | Some o =>
      Ok {| strategy_class := strategy_class; opt_symbol := symbol;
            objective_name := objective_name; objective_function := o;
            additional_metrics := default [] additional_metrics |}
  end.

Fixpoint suggest_all (t : Trial)
    (bounds : list (string * (string * list PyVal))) : Res Parameters :=
  match bounds with
  | [] => Ok []
  | (param_name, (param_type, bounds_values)) :: rest =>
      v ← (if String.eqb param_type "int"
           then suggest (number t) "int" param_name bounds_values
           else if String.eqb param_type "float"
           then suggest (number t) "float" param_name bounds_values
           else if String.eqb param_type "categorical"
           then match bounds_values with
                | choices :: _ => suggest (number t) "categorical" param_name [choices]
                | [] => Raise (IndexError "list index out of range")
                end
           else Raise (ValueError ("Unknown parameter type: " +:+ param_type)));
      ps ← suggest_all t rest;
      Ok ((param_name, v) :: ps)
  end.

Definition create_trial_params (self : StrategyOptimizer) (t : Trial) : Res Parameters :=
  strategy ← construct (strategy_class self) (opt_symbol self);
  bounds ← get_optimization_bounds (strategy_class self) strategy;
  suggest_all t bounds.

(** [trial.set_user_attr(name, v)] *)
Definition set_user_attr (t : Trial) (name : string) (v : option float) : Trial :=
  {| number := number t; user_attrs := <[name := v]> (user_attrs t) |}.

Definition store_additional (metrics : gmap string (option float))
    (names : list string) (t : Trial) : Trial :=
  fold_left
    (fun t metric_name =>
       match metrics !! metric_name with
       | Some v => set_user_attr t metric_name v
       | None => t
       end) names t.

(** Lines 36-50 of [StrategyOptimizer.objective], from the construction of
    the instance to the [try] statement. *)
Definition prepare (self : StrategyOptimizer) (t : Trial) : Res Strategy :=
  strategy ← construct (strategy_class self) (opt_symbol self);
  params ← create_trial_params self t;
  match set_parameters (strategy_class self) params strategy with
  | (Ok _, strategy') => Ok strategy'
  | (Raise e, _) => Raise e
  end.

(** [StrategyOptimizer.objective]; [None] is the value of a metric whose
    computation failed. *)
Definition objective (self : StrategyOptimizer) (t : Trial)
    : Res (option float) * Trial :=
  match prepare self t with
  | Raise e => (Raise e, t)
  | Ok strategy =>
      match run_strategy (strategy_class self) strategy with
      | (Raise e, _) => (Ok (Some F.neg_inf), t)
      | (Ok _, strategy1) =>
          let metrics_to_calculate := objective_name self :: additional_metrics self in
          match Strategy_calculate_metrics (Some metrics_to_calculate) strategy1 with
          | (Raise e, _) => (Raise e, t)
          | (Ok metrics, _) =>
              let t' := store_additional metrics (additional_metrics self) t in
              (Ok (default (Some F.neg_inf) (metrics !! objective_name self)), t')
          end
      end
  end.

Definition single (r : Res (option float) * Trial) : Res (list (option float)) * Trial :=
  match r with
  | (Ok v, t) => (Ok [v], t)
  | (Raise e, t) => (Raise e, t)
  end.

(** [StrategyOptimizer.optimize]; the wall-clock [timeout] is left at its
    default, [None]. *)
Definition optimize (self : StrategyOptimizer) (n_trials : nat) (direction : string)
    : Res Study :=
  study ← create_study direction;
  match study_optimize (fun t => single (objective self t)) n_trials study with
  | (Ok _, study') => Ok study'
  | (Raise e, _) => Raise e
  end.

Record MultiObjectiveOptimizer : Type := {
  parent : StrategyOptimizer;
  objectives : list string
}.

Definition check_objectives (objectives : list string) : Res unit :=
  fold_left
    (fun acc obj =>
       _ ← acc;
       match registry_get OPTIMIZATION_OBJECTIVES obj with
       | None => Raise (ValueError ("Unknown optimization objective: " +:+ obj))
       | Some _ => Ok ()
       end) objectives (Ok ()).

(** [MultiObjectiveOptimizer.__init__] *)
Definition MultiObjectiveOptimizer_init (strategy_class : StrategyClass)
    (symbol : string) (objectives : list string) : Res MultiObjectiveOptimizer :=
  match objectives with
  | [] => Raise (ValueError "At least one objective must be specified")
  | first :: _ =>
      _ ← check_objectives objectives;
      p ← StrategyOptimizer_init strategy_class symbol first None;
      Ok {| parent := p; objectives := objectives |}
  end.

(** [MultiObjectiveOptimizer.objective] *)
Definition multi_objective (self : MultiObjectiveOptimizer) (t : Trial)
    : Res (list (option float)) * Trial :=
  match prepare (parent self) t with
  | Raise e => (Raise e, t)
  | Ok strategy =>
      match run_strategy (strategy_class (parent self)) strategy with
      | (Raise e, _) => (Ok (repeat (Some F.neg_inf) (length (objectives self))), t)
      | (Ok _, strategy1) =>
          match Strategy_calculate_metrics (Some (objectives self)) strategy1 with
          | (Raise e, _) => (Raise e, t)
          | (Ok metrics, _) =>
              (Ok (map (fun obj => default (Some F.neg_inf) (metrics !! obj))
                     (objectives self)), t)
          end
      end
  end.

(** The direction an objective's polarity gives:
    ['maximize' if OPTIMIZATION_OBJECTIVES[obj].higher_is_better else 'minimize']. *)
Definition direction_of (obj : string) : Res string :=
  match registry_get OPTIMIZATION_OBJECTIVES obj with
  | None => Raise (KeyError obj)
  | Some o =>
      a ← getattr o "higher_is_better";
      match a with
      | ABool (Some true) => Ok "maximize"
      | ABool _ => Ok "minimize"
      | _ => Ok "maximize"
      end
  end.

Fixpoint directions_of (objs : list string) : Res (list string) :=
  match objs with
  | [] => Ok []
  | obj :: rest => d ← direction_of obj; ds ← directions_of rest; Ok (d :: ds)
  end.

(** [MultiObjectiveOptimizer.optimize] *)
Definition multi_optimize (self : MultiObjectiveOptimizer) (n_trials : nat) : Res Study :=
  ds ← directions_of (objectives self);
  study ← create_study_multi ds;
  match study_optimize (multi_objective self) n_trials study with
  | (Ok _, study') => Ok study'
  | (Raise e, _) => Raise e
  end.

End Optimizers.


(** ** random: the generator of the [random] module

    The generator is a stream of raw draws.  [randbelow n] is the primitive
    CPython builds [choice] and [sample] on; [random()] is a multiple of
    [2^-53] in [[0, 1)]. *)

Definition Rng : Type := nat -> N.

Definition advance (g : Rng) : Rng := fun i => g (S i).

Definition randbelow (n : nat) (g : Rng) : nat * Rng :=
  (N.to_nat (g O mod N.of_nat n), advance g).

Definition two_53 : N := 9007199254740992.

Definition random_random (g : Rng) : float * Rng :=
  (F.div (F.of_Z (Z.of_N (g O mod two_53))) (F.of_Z (Z.of_N two_53)), advance g).

(** [random.choice(seq)] *)
Definition random_choice {A} (seq : list A) (g : Rng) : Res A * Rng :=
  match seq with
  | [] => (Raise (IndexError "Cannot choose from an empty sequence"), g)
  | _ =>
      let '(j, g') := randbelow (length seq) g in
      match seq !! j with
      | Some x => (Ok x, g')
      | None => (Raise (IndexError "list index out of range"), g')
      end
  end.

(** [random.sample(population, k)] selects from a pool: the entry drawn at
    position [j] is replaced by the last entry of the pool, which then
    shrinks by one.  (CPython takes this branch for a population of up to
    21 entries when [k <= 5], and rejects repeated positions instead for a
    larger one.) *)
Fixpoint sample_pool {A} (pool : list A) (k : nat) (g : Rng) : list A * Rng :=
  match k with
  | O => ([], g)
  | S k' =>
      let '(j, g') := randbelow (length pool) g in
      match pool !! j, last pool with
      | Some x, Some l =>
          let '(rest, g'') :=
            sample_pool (take (length pool - 1) (<[j := l]> pool)) k' g' in
          (x :: rest, g'')
      | _, _ => ([], g')
      end
  end.

Definition random_sample {A} (population : list A) (k : nat) (g : Rng)
    : Res (list A) * Rng :=
  if (length population <? k)%nat
  then (Raise (ValueError "Sample larger than population or is negative"), g)
  else let '(l, g') := sample_pool population k g in (Ok l, g').

(** ** numpy: [argmax] *)

Fixpoint argmax_from (best_i : nat) (best : float) (i : nat) (l : list float) : nat :=
  match l with
  | [] => best_i
  | x :: t =>
      if F.is_nan best then best_i
      else if F.is_nan x || F.ltb best x then argmax_from i x (S i) t
      else argmax_from best_i best (S i) t
  end.

Definition np_argmax (l : list float) : Res nat :=
  match l with
  | [] => Raise (ValueError "attempt to get argmax of an empty sequence")
  | x :: t => Ok (argmax_from O x 1%nat t)
  end.

(** Indexing a list. *)
Definition index {A} (l : list A) (i : nat) : Res A :=
  match l !! i with
  | Some x => Ok x
  | None => Raise (IndexError "list index out of range")
  end.

(** Indexing a one-dimensional array of numpy. *)
Definition ndarray_index {A} (a : list A) (i : nat) : Res A :=
  match a !! i with
  | Some x => Ok x
  | None =>
      Raise (IndexError ("index " +:+ pretty i +:+ " is out of bounds for axis 0 with size "
                         +:+ pretty (length a)))
  end.

(** ** genetic_strategy.py *)

Section GeneticStrategy.

(** The encoding of a candidate solution, and the state the subclass keeps
    besides the generator of the [random] module. *)
Variable Individual : Type.
Variable U : Type.

Record World : Type := {
  rng : Rng;
  user : U
}.

(** The methods a subclass has to implement, that raise
    [NotImplementedError] in [GeneticStrategy] itself.  They read and change
    the world and may raise; they return new individuals. *)
Variable initialize_population : Method World (list Individual).
Variable evaluate_fitness : Individual -> Method World float.
Variable crossover : Individual -> Individual -> Method World Individual.
Variable mutate : Individual -> Method World Individual.

(** numpy's [argsort] and [mean] of a list of floats.  The order [argsort]
    gives to equal keys and the rounding of [mean] are numpy's own. *)
Variable np_argsort : list float -> list nat.
Variable np_mean : list float -> float.

Record GeneticStrategy : Type := {
  population_size : Z;
  generations : Z;
  mutation_rate : float;
  crossover_rate : float;
  elite_size : Z;
  best_individual : option Individual;
  population : list Individual;
  fitness_history : list float
}.

(** [GeneticStrategy.__init__] *)
Definition GeneticStrategy_init (population_size generations : Z)
    (mutation_rate crossover_rate : float) (elite_size : Z) : GeneticStrategy :=
  {| population_size := population_size; generations := generations;
     mutation_rate := mutation_rate; crossover_rate := crossover_rate;
     elite_size := elite_size; best_individual := None; population := [];
     fitness_history := [] |}.

Definition set_best_individual (self : GeneticStrategy) (b : Individual) :=
  {| population_size := population_size self; generations := generations self;
     mutation_rate := mutation_rate self; crossover_rate := crossover_rate self;
     elite_size := elite_size self; best_individual := Some b;
     population := population self; fitness_history := fitness_history self |}.

Definition set_population (self : GeneticStrategy) (p : list Individual) :=
  {| population_size := population_size self; generations := generations self;
     mutation_rate := mutation_rate self; crossover_rate := crossover_rate self;
     elite_size := elite_size self; best_individual := best_individual self;
     population := p; fitness_history := fitness_history self |}.

Definition append_fitness_history (self : GeneticStrategy) (x : float) :=
  {| population_size := population_size self; generations := generations self;
     mutation_rate := mutation_rate self; crossover_rate := crossover_rate self;
     elite_size := elite_size self; best_individual := best_individual self;
     population := population self; fitness_history := fitness_history self ++ [x] |}.

(** Computations of the engine: they thread the world. *)
Definition W (A : Type) : Type := World -> Res A * World.

#[local] Instance W_ret : MRet W := fun A a w => (Ok a, w).
#[local] Instance W_bind : MBind W := fun A B f m w =>
  match m w with
  | (Ok a, w') => f a w'
  | (Raise e, w') => (Raise e, w')
  end.

Definition raise {A} (e : Exn) : W A := fun w => (Raise e, w).

Definition lift {A} (r : Res A) : W A := fun w => (r, w).

Definition hook {A} (m : Method World A) : W A := m.

(** The [random] module, on the generator of the world. *)
Definition with_rng {A} (f : Rng -> A * Rng) : W A := fun w =>
  let '(a, g) := f (rng w) in (Ok a, {| rng := g; user := user w |}).

Definition with_rng_res {A} (f : Rng -> Res A * Rng) : W A := fun w =>
  let '(r, g) := f (rng w) in (r, {| rng := g; user := user w |}).

Definition random : W float := with_rng random_random.
Definition choice (seq : list Individual) : W Individual :=
  with_rng_res (random_choice seq).
Definition sample (seq : list Individual) (k : nat) : W (list Individual) :=
  with_rng_res (random_sample seq k).

(** [[f(x) for x in l]] *)
Fixpoint for_each {A B} (f : A -> W B) (l : list A) : W (list B) :=
  match l with
  | [] => mret []
  | x :: t => y ← f x; ys ← for_each f t; mret (y :: ys)
  end.

(** [max(l, key=f)]: the key of every entry is computed once, in order;
    a later entry replaces the current one only when its key is greater. *)
Fixpoint max_from (f : Individual -> W float) (best : Individual) (kbest : float)
    (l : list Individual) : W Individual :=
  match l with
  | [] => mret best
  | x :: t =>
      k ← f x;
      if F.gtb k kbest then max_from f x k t else max_from f best kbest t
  end.

Definition max_key (f : Individual -> W float) (l : list Individual) : W Individual :=
  match l with
  | [] => raise (ValueError "max() arg is an empty sequence")
  | x :: t => k ← f x; max_from f x k t
  end.

Definition tournament_size : nat := 3.

(** One pass of the loop of [select_parents]. *)
Definition select_parent (self : GeneticStrategy) : W Individual :=
  tournament ← sample (population self) tournament_size;
  max_key (fun x => hook (evaluate_fitness x)) tournament.

(** [GeneticStrategy.select_parents] *)
Definition select_parents (self : GeneticStrategy) : W (list Individual) :=
  winner1 ← select_parent self;
  winner2 ← select_parent self;
  mret [winner1; winner2].

(** The elitism loop of lines 89-91. *)
Fixpoint elites (population : list Individual) (sorted_indices : list nat)
    (i count : nat) : Res (list Individual) :=
  match count with
  | O => Ok []
  | S c =>
      idx ← ndarray_index sorted_indices i;
      ind ← index population idx;
      rest ← elites population sorted_indices (S i) c;
      Ok (ind :: rest)
  end.

(** The body of the [while] loop of lines 94-107: one child. *)
Definition make_child (self : GeneticStrategy) : W Individual :=
  r ← random;
  child ← (if F.ltb r (crossover_rate self)
           then parents ← select_parents self;
                match parents with
                | [p0; p1] => hook (crossover p0 p1)
                | _ => raise (IndexError "list index out of range")
                end
           else choice (population self));
  r' ← random;
  if F.ltb r' (mutation_rate self) then hook (mutate child) else mret child.

(** The [while] loop: every pass appends one child, so it runs as many times
    as individuals are missing, [remaining] times. *)
Fixpoint fill (self : GeneticStrategy) (new_population : list Individual)
    (remaining : nat) : W (list Individual) :=
  match remaining with
  | O => mret new_population
  | S r =>
      child ← make_child self;
      fill self (new_population ++ [child]) r
  end.

Definition missing (self : GeneticStrategy) (new_population : list Individual) : nat :=
  Z.to_nat (population_size self - Z.of_nat (length new_population)).

(** The same loop with its test, [len(new_population) < self.population_size],
    bounded by [fuel] passes; [None] when the bound is reached. *)
Fixpoint fill_while (self : GeneticStrategy) (new_population : list Individual)
    (fuel : nat) : World -> option (Res (list Individual) * World) := fun w =>
  if (Z.of_nat (length new_population) <? population_size self)%Z then
    match fuel with
    | O => None
    | S fuel' =>
        match make_child self w with
        | (Ok child, w') => fill_while self (new_population ++ [child]) fuel' w'
        | (Raise e, w') => Some (Raise e, w')
        end
    end
  else Some (Ok new_population, w).

(** One pass of the loop over the generations, lines 74-109. *)
Definition generation (self : GeneticStrategy) : W GeneticStrategy := fun w =>
  match for_each (fun ind => hook (evaluate_fitness ind)) (population self) w with
  | (Raise e, w1) => (Raise e, w1)
  | (Ok fitness_scores, w1) =>
      match np_argmax fitness_scores with
      | Raise e => (Raise e, w1)
      | Ok best_idx =>
          let improved : W bool :=
            match best_individual self with
            | None => mret true
            | Some b =>
                score ← lift (index fitness_scores best_idx);
                fb ← hook (evaluate_fitness b);
                mret (F.gtb score fb)
            end in
          (self1 ← (better ← improved;
                    if better : bool
                    then b ← lift (index (population self) best_idx);
                         mret (set_best_individual self b)
                    else mret self);
           let self2 := append_fitness_history self1 (np_mean fitness_scores) in
           let sorted_indices := rev (np_argsort fitness_scores) in
           new_population ← lift (elites (population self2) sorted_indices O
                                    (Z.to_nat (elite_size self2)));
           new_population ← fill self2 new_population (missing self2 new_population);
           mret (set_population self2 new_population)) w1
      end
  end.

Fixpoint generations_loop (n : nat) (self : GeneticStrategy) : W GeneticStrategy :=
  match n with
  | O => mret self
  | S n' => self' ← generation self; generations_loop n' self'
  end.

(** [GeneticStrategy.evolve] *)
Definition evolve (self : GeneticStrategy) : W GeneticStrategy :=
  population ← hook initialize_population;
  generations_loop (Z.to_nat (generations self)) (set_population self population).

(** [GeneticStrategy.run_strategy]: it evolves when there is no best
    individual yet, and raises in the end. *)
Definition GeneticStrategy_run_strategy (self : GeneticStrategy) : W unit :=
  _ ← (match best_individual self with
       | None => evolve self
       | Some _ => mret self
       end);
  raise (NotImplementedError "Subclasses must implement run_strategy").

End GeneticStrategy.

Arguments Build_World {U} rng user.
Arguments rng {U} w.
Arguments user {U} w.
Arguments population_size {Individual} self : rename.
Arguments generations {Individual} self : rename.
Arguments mutation_rate {Individual} self : rename.
Arguments crossover_rate {Individual} self : rename.
Arguments elite_size {Individual} self : rename.
Arguments best_individual {Individual} self : rename.
Arguments population {Individual} self : rename.
Arguments fitness_history {Individual} self : rename.
Arguments set_population {Individual} self p.
Arguments missing {Individual} self new_population.
Arguments elites {Individual} population sorted_indices i count.
Arguments raise {U A} e _.
Arguments lift {U A} r _.
Arguments hook {U A} m _.
Arguments with_rng {U A} f _.
Arguments with_rng_res {U A} f _.
Arguments random {U} _.
Arguments choice {Individual U} seq _.
Arguments sample {Individual U} seq k _.
Arguments for_each {U A B} f l _.
Arguments max_from {Individual U} f best kbest l _.
Arguments max_key {Individual U} f l _.
Arguments select_parent {Individual U} evaluate_fitness self _.
Arguments select_parents {Individual U} evaluate_fitness self _.
Arguments make_child {Individual U} evaluate_fitness crossover mutate self _.
Arguments fill {Individual U} evaluate_fitness crossover mutate self new_population remaining _.
Arguments fill_while {Individual U} evaluate_fitness crossover mutate self new_population fuel _.
Arguments generation {Individual U} evaluate_fitness crossover mutate np_argsort np_mean self _.
Arguments generations_loop {Individual U} evaluate_fitness crossover mutate np_argsort np_mean n self _.
Arguments evolve {Individual U} initialize_population evaluate_fitness crossover mutate np_argsort np_mean self _.
Arguments GeneticStrategy_run_strategy {Individual U} initialize_population evaluate_fitness crossover mutate np_argsort np_mean self _.
Arguments set_best_individual {Individual} self b.
Arguments append_fitness_history {Individual} self x.

(** The four methods as [GeneticStrategy] itself defines them, and
    [initialize_population] as [MyGeneticStrategy] does: its body is [pass],
    which leaves the population of a new instance empty. *)
Definition GeneticStrategy_initialize_population {Individual U}
    : Method (World U) (list Individual) :=
  fun w => (Raise (NotImplementedError "Subclasses must implement initialize_population"), w).

Definition GeneticStrategy_evaluate_fitness {Individual U} (individual : Individual)
    : Method (World U) float :=
  fun w => (Raise (NotImplementedError "Subclasses must implement evaluate_fitness"), w).

Definition GeneticStrategy_crossover {Individual U} (parent1 parent2 : Individual)
    : Method (World U) Individual :=
  fun w => (Raise (NotImplementedError "Subclasses must implement crossover"), w).

Definition GeneticStrategy_mutate {Individual U} (individual : Individual)
    : Method (World U) Individual :=
  fun w => (Raise (NotImplementedError "Subclasses must implement mutate"), w).

Definition MyGeneticStrategy_initialize_population {Individual U}
    : Method (World U) (list Individual) :=
  fun w => (Ok [], w).

(** *** The attributes of an instance, by name

    [get_parameters] and [set_parameters] read and assign attributes by
    name.  An instance is seen here as its attribute dictionary; the names
    its classes define (the methods) are attributes too.  Names inherited
    from [object] are left out. *)

Definition class_attributes : list string :=
  [ "add_operator"; "initialize_population"; "evaluate_fitness"; "select_parents";
    "crossover"; "mutate"; "evolve"; "plot_fitness_history"; "run_strategy";
    "get_parameters"; "set_parameters"; "plot_strategy"; "calculate_metrics";
    "get_metrics_by_category"; "get_optimization_bounds" ].

(** The dictionary [GeneticStrategy.__init__] leaves. *)
Definition GeneticStrategy_dict (symbol : string) (population_size generations : Z)
    (mutation_rate crossover_rate : float) (elite_size : Z) : gmap string PyVal :=
  <["symbol" := VStr symbol]>
  (<["data" := VNone]>
  (<["performance_metrics" := VDict []]>
  (<["population_size" := VInt population_size]>
  (<["generations" := VInt generations]>
  (<["mutation_rate" := VFloat mutation_rate]>
  (<["crossover_rate" := VFloat crossover_rate]>
  (<["elite_size" := VInt elite_size]>
  (<["operators" := VList []]>
  (<["best_individual" := VNone]>
  (<["population" := VList []]>
  (<["fitness_history" := VList []]> ∅))))))))))).

Definition hasattr (self : gmap string PyVal) (key : string) : bool :=
  bool_decide (is_Some (self !! key)) || bool_decide (key ∈ class_attributes).

Definition setattr (self : gmap string PyVal) (key : string) (value : PyVal)
    : gmap string PyVal :=
  <[key := value]> self.

(** [GeneticStrategy.set_parameters] *)
Definition GeneticStrategy_set_parameters (parameters : Parameters)
    : Method (gmap string PyVal) unit :=
  fun self =>
    (Ok (),
     fold_left
       (fun self kv => if hasattr self kv.1 then setattr self kv.1 kv.2 else self)
       parameters self).

(** [GeneticStrategy.get_parameters] *)
Definition GeneticStrategy_get_parameters (self : gmap string PyVal) : Res Parameters :=
  let attr name :=
    match self !! name with
    | Some v => Ok (name, v)
    | None =>
        Raise (AttributeError
                 ("'GeneticStrategy' object has no attribute '" +:+ name +:+ "'"))
    end in
  a ← attr "population_size"; b ← attr "generations"; c ← attr "mutation_rate";
  d ← attr "crossover_rate"; e ← attr "elite_size";
  Ok [a; b; c; d; e].

(** ** Vocabulary of the properties *)

(** A finite number other than zero. *)
Definition finite_nonzero (x : float) : Prop := F.is_finite_nonzero x = true.

(** A zero of either sign. *)
Definition is_zero (x : float) : bool :=
  match x with S754_zero _ => true | _ => false end.

(** The sign bit of a number is clear (NaN has none). *)
Definition sign_bit_clear (x : float) : bool :=
  match x with
  | S754_zero s | S754_infinity s | S754_finite s _ _ => negb s
  | S754_nan => true
  end.

(** Consecutive entries of a series never decrease. *)
Definition nondecreasing (c : Series) : Prop :=
  forall i x y, c !! i = Some x -> c !! S i = Some y -> F.leb x y = true.

(** [-0.5] *)
Definition neg_half : float := Eval vm_compute in F.sub F.half F.one.

(** The drawdown series in the words of the specification:
    (value - running peak) / running peak over an expanding window. *)
Definition spec_drawdowns (c : Series) : Series :=
  zip_with (fun v p => F.div (F.sub v p) p) c (expanding_max c).

(** The order numpy sorts floats by: NaN after every number. *)
Definition np_lt (a b : float) : bool :=
  F.ltb a b || (negb (F.is_nan a) && F.is_nan b).

(** What [np.argsort] promises about [idx], its result on [scores]: a
    permutation of the positions whose scores never decrease. *)
Definition argsort_of (scores : list float) (idx : list nat) : Prop :=
  Permutation idx (seq 0 (length scores)) /\
  forall p q i j x y,
    (p < q)%nat -> idx !! p = Some i -> idx !! q = Some j ->
    scores !! i = Some x -> scores !! j = Some y -> np_lt y x = false.

(** Elitism in the words of the specification: the positions by descending
    fitness through a stable sort, equal fitness keeping the order of the
    population; the elites are the individuals at the first of them. *)
Fixpoint insert_descending (scores : list float) (i : nat) (sorted : list nat)
    : list nat :=
  match sorted with
  | [] => [i]
  | j :: t =>
      if F.ltb (default F.nan (scores !! j)) (default F.nan (scores !! i))
      then i :: j :: t
      else j :: insert_descending scores i t
  end.

Definition spec_sorted_indices (scores : list float) : list nat :=
  fold_left (fun acc i => insert_descending scores i acc) (seq 0 (length scores)) [].

Definition spec_elites {A} (population : list A) (scores : list float)
    (elite_size : nat) : list A :=
  omap (fun i => population !! i) (take elite_size (spec_sorted_indices scores)).

(** The entries of [t] stand at pairwise distinct positions of [population]. *)
Definition distinct_positions {A} (population t : list A) : Prop :=
  exists positions : list nat,
    NoDup positions /\ Forall2 (fun i x => population !! i = Some x) positions t.

(** [p] is an entry of [t] whose fitness no entry of [t] exceeds. *)
Definition highest {A} (fitness : A -> float) (t : list A) (p : A) : Prop :=
  p ∈ t /\ forall y, y ∈ t -> F.gtb (fitness y) (fitness p) = false.

(** ** Instances on which the model is run *)

(** A stable ascending argsort, by insertion: equal scores keep the order
    of their positions. *)
Fixpoint insert_index (scores : list float) (i : nat) (sorted : list nat) : list nat :=
  match sorted with
  | [] => [i]
  | j :: t =>
      if np_lt (default F.nan (scores !! i)) (default F.nan (scores !! j))
      then i :: j :: t
      else j :: insert_index scores i t
  end.

Definition stable_argsort (scores : list float) : list nat :=
  fold_left (fun acc i => insert_index scores i acc) (seq 0 (length scores)) [].

(** The mean, summing from left to right. *)
Definition sequential_mean (l : list float) : float :=
  F.div (fold_left F.add l F.zero) (F.of_nat (length l)).

(** A data frame with a signal, prices and returns, without per-trade returns. *)
Definition df_no_trades : DataFrame :=
  <["Signal" := [F.one; F.one; F.one]]>
  (<["Close" := [F.one; F.half; F.one]]>
  {[ "returns" := [F.zero; F.opp F.half; F.one] ]}).

(** A registry whose metric object carries the attributes the loop of
    [calculate_metrics] reads, [requires] and [function]. *)
Definition registry_as_read : Registry :=
  [ ("win_rate",
     {| class_name := "Metric";
        attributes :=
          <["requires" := AColumns ["trade_returns"]]>
          (<["function" := AFunction calculate_win_rate]> ∅) |}) ].

(** A strategy class whose [run_strategy] always raises. *)
Definition failing_strategy : StrategyClass :=
  {| construct := fun symbol => Ok {| base := BaseStrategy_init symbol; extra := ∅ |};
     get_optimization_bounds := fun _ => Ok [("window", ("int", [VInt 1; VInt 5]))];
     set_parameters := fun params s =>
       (Ok (), {| base := base s; extra := list_to_map params |});
     run_strategy := fun s => (Raise (RuntimeError "no data"), s) |}.

(** A sampler that suggests the first of the arguments it is given. *)
Definition suggest_first (number : nat) (kind name : string) (args : list PyVal)
    : Res PyVal :=
  Ok (hd VNone args).

Definition trial0 : Trial := {| number := 0; user_attrs := ∅ |}.

(** A genetic strategy over integers with fitness [-(x - 3)^2]; the world
    counts the evaluations of the fitness. *)
Definition peak_fitness (x : Z) : float := F.opp (F.of_Z ((x - 3) * (x - 3))).

Definition counting_fitness (x : Z) : Method (World nat) float :=
  fun w => (Ok (peak_fitness x), {| rng := rng w; user := S (user w) |}).

(** The same fitness, leaving the world as it is. *)
Definition silent_fitness (x : Z) : Method (World nat) float :=
  fun w => (Ok (peak_fitness x), w).

Definition first_parent (a b : Z) : Method (World nat) Z := fun w => (Ok a, w).

Definition increment (x : Z) : Method (World nat) Z := fun w => (Ok (x + 1), w).

Definition fixed_population (p : list Z) : Method (World nat) (list Z) :=
  fun w => (Ok p, w).

(** A generator whose draws are all [r]. *)
Definition constant_rng (r : N) : Rng := fun _ => r.

Definition world0 (r : N) : World nat := {| rng := constant_rng r; user := O |}.

(** * Properties *)

(** ** Exact quotients of binary64 numbers *)

Lemma div_eucl_mul (m : positive) (k : Z) :
  Z.div_eucl (Z.pos m * k) (Z.pos m) = (k, 0).
Proof.
  pose proof (Z.div_eucl_eq (Z.pos m * k) (Z.pos m)) as E.
  pose proof (Z.mod_pos_bound (Z.pos m * k) (Z.pos m)) as B.
  unfold Z.modulo in B.
  destruct (Z.div_eucl (Z.pos m * k) (Z.pos m)) as [q r].
  assert (Hm : 0 < Z.pos m) by lia.
  specialize (E ltac:(lia)). specialize (B Hm).
  assert (q = k) by nia. subst q.
  f_equal. lia.
Qed.

Lemma new_location_zero (n : Z) : new_location n 0 = loc_Exact.
Proof. unfold new_location. destruct (Z.even n); reflexivity. Qed.

Lemma div_core_self (m : positive) (e : Z) :
  SFdiv_core_binary F.prec F.emax (Z.pos m) e (Z.pos m) e
  = (9007199254740992, -53, loc_Exact).
Proof.
  unfold SFdiv_core_binary.
  replace (Zdigits2 (Z.pos m) + e - (Zdigits2 (Z.pos m) + e)) with 0 by lia.
  replace (e - e) with 0 by lia.
  change (Z.min (fexp F.prec F.emax 0) 0) with (-53).
  change (0 - -53) with 53.
  cbv beta iota zeta.
  rewrite Z.shiftl_mul_pow2 by lia.
  rewrite div_eucl_mul, new_location_zero. reflexivity.
Qed.

Lemma div_self (s : bool) (m : positive) (e : Z) :
  F.div (S754_finite s m e) (S754_finite s m e) = F.one.
Proof.
  unfold F.div, SFdiv. rewrite div_core_self.
  destruct s; vm_compute; reflexivity.
Qed.

Lemma div_core_half (m : positive) (e : Z) :
  SFdiv_core_binary F.prec F.emax (Z.pos m) e (Z.pos m) (e + 1)
  = (9007199254740992, -54, loc_Exact).
Proof.
  unfold SFdiv_core_binary.
  replace (Zdigits2 (Z.pos m) + e - (Zdigits2 (Z.pos m) + (e + 1))) with (-1) by lia.
  replace (e - (e + 1)) with (-1) by lia.
  change (Z.min (fexp F.prec F.emax (-1)) (-1)) with (-54).
  change (-1 - -54) with 53.
  cbv beta iota zeta.
  rewrite Z.shiftl_mul_pow2 by lia.
  rewrite div_eucl_mul, new_location_zero. reflexivity.
Qed.

Lemma div_half (s : bool) (m : positive) (e : Z) :
  F.div (S754_finite s m e) (S754_finite s m (e + 1)) = F.half.
Proof.
  unfold F.div, SFdiv. rewrite div_core_half.
  destruct s; vm_compute; reflexivity.
Qed.

(** ** The profit factor *)

Lemma in_columns_Some (df : DataFrame) col s :
  df !! col = Some s -> in_columns col df = true.
Proof. intros H. unfold in_columns. apply bool_decide_eq_true. eauto. Qed.

Lemma in_columns_None (df : DataFrame) col :
  df !! col = None -> in_columns col df = false.
Proof.
  intros H. unfold in_columns. apply bool_decide_eq_false.
  rewrite H. intros [? ?]. discriminate.
Qed.

Lemma boolean_index_filter (s : Series) (p : float -> bool) :
  boolean_index s (map p s) = List.filter p s.
Proof. induction s as [|x s IH]; simpl; [reflexivity|]. rewrite IH. reflexivity. Qed.

Lemma filter_none {A} (p : A -> bool) (l : list A) :
  (forall x, In x l -> p x = false) -> List.filter p l = [].
Proof.
  induction l as [|x l IH]; simpl; intros H; [reflexivity|].
  rewrite (H x) by auto. apply IH. auto.
Qed.

Lemma profit_factor_guard_true (df : DataFrame) :
  df !! "trade_returns" = None \/ df !! "trade_returns" = Some [] ->
  calculate_profit_factor df = Ok F.zero.
Proof.
  intros [H|H]; unfold calculate_profit_factor, no_trade_returns.
  - rewrite (in_columns_None _ _ H). reflexivity.
  - rewrite (in_columns_Some _ _ _ H). unfold getitem. rewrite H. reflexivity.
Qed.

Lemma profit_factor_nonempty (df : DataFrame) tr :
  df !! "trade_returns" = Some tr -> tr <> [] ->
  calculate_profit_factor df =
    let gains := Series_sum (boolean_index tr (Series_gt tr F.zero)) in
    let losses := F.abs (Series_sum (boolean_index tr (Series_lt tr F.zero))) in
    if F.neb losses F.zero then Ok (F.div gains losses) else Ok F.inf.
Proof.
  intros H Hne. unfold calculate_profit_factor, no_trade_returns.
  rewrite (in_columns_Some _ _ _ H). unfold getitem. rewrite H. simpl.
  destruct tr; [congruence|]. reflexivity.
Qed.

(** C7: the profit factor never raises.  On a record whose [trade_returns]
    field is absent or empty it is [0.0]; on a record with trades whose
    losses sum to zero, in particular one without a negative trade, it is
    positive infinity, whatever the gains. *)
Theorem C7_profit_factor_zero_losses (df : DataFrame) :
  (exists v, calculate_profit_factor df = Ok v) /\
  (df !! "trade_returns" = None \/ df !! "trade_returns" = Some [] ->
   calculate_profit_factor df = Ok F.zero) /\
  (forall tr, df !! "trade_returns" = Some tr -> tr <> [] ->
     F.eqb (F.abs (Series_sum (boolean_index tr (Series_lt tr F.zero)))) F.zero = true ->
     calculate_profit_factor df = Ok F.inf) /\
  (forall tr, df !! "trade_returns" = Some tr -> tr <> [] ->
     (forall x, In x tr -> F.ltb x F.zero = false) ->
     calculate_profit_factor df = Ok F.inf).
Proof.
  split; [|split; [apply profit_factor_guard_true|split]].
  - destruct (df !! "trade_returns") as [tr|] eqn:H.
    + destruct tr as [|x tr].
      * exists F.zero. apply profit_factor_guard_true. auto.
      * rewrite (profit_factor_nonempty df (x :: tr) H) by discriminate.
        cbv zeta. match goal with |- context [if ?b then _ else _] => destruct b end; eauto.
    + exists F.zero. apply profit_factor_guard_true. auto.
  - intros tr H Hne Hz. rewrite (profit_factor_nonempty df tr H Hne). cbv zeta.
    unfold F.neb. unfold F.eqb in Hz. rewrite Hz. reflexivity.
  - intros tr H Hne Hz. rewrite (profit_factor_nonempty df tr H Hne). cbv zeta.
    unfold Series_lt. rewrite boolean_index_filter.
    rewrite (filter_none _ tr Hz). reflexivity.
Qed.

Lemma C7_profit_factor_zero_losses_witness :
  calculate_profit_factor {[ "trade_returns" := [F.one; F.half] ]} = Ok F.inf.
Proof.
  apply (proj2 (proj2 (proj2 (C7_profit_factor_zero_losses _))) [F.one; F.half]).
  - reflexivity.
  - discriminate.
  - intros x [<-|[<-|[]]]; reflexivity.
Defined.

(** Without the field, and with an empty one, the losses sum to zero and
    the profit factor is [0.0], not infinity. *)
Lemma C7_counterexample :
  calculate_profit_factor ∅ = Ok F.zero /\
  calculate_profit_factor {[ "trade_returns" := [] ]} = Ok F.zero /\
  Ok F.zero <> Ok F.inf.
Proof. split; [reflexivity|split; [reflexivity|discriminate]]. Qed.

(** ** The maximal drawdown *)

Lemma finite_not_nan x : finite_nonzero x -> F.is_nan x = false.
Proof. destruct x; simpl; unfold finite_nonzero; simpl; congruence. Qed.

Lemma leb_not_ltb_eq (x y : float) :
  finite_nonzero x -> finite_nonzero y ->
  F.leb x y = true -> F.ltb x y = false -> x = y.
Proof.
  destruct x as [| | |sx mx ex], y as [| | |sy my ey]; unfold finite_nonzero; simpl;
    try discriminate.
  intros _ _. unfold F.leb, F.ltb, SFleb, SFltb, SFcompare.
  destruct sx, sy; try discriminate;
    destruct (Z.compare_spec ex ey) as [He|He|He]; try discriminate; subst;
    fold (Pos.compare mx my);
    destruct (Pos.compare_spec mx my) as [Hm|Hm|Hm]; simpl; try discriminate;
    subst; reflexivity.
Qed.

Lemma nondecreasing_tail x c : nondecreasing (x :: c) -> nondecreasing c.
Proof. intros H i a b Ha Hb. apply (H (S i) a b); assumption. Qed.

Lemma nondecreasing_head x y c : nondecreasing (x :: y :: c) -> F.leb x y = true.
Proof. intros H. apply (H O x y); reflexivity. Qed.

Lemma expanding_max_from_monotone (c : Series) (p : float) :
  finite_nonzero p -> Forall finite_nonzero c -> nondecreasing (p :: c) ->
  expanding_max_from (Some p) c = c.
Proof.
  revert p. induction c as [|x c IH]; intros p Hp Hc Hm; [reflexivity|].
  inversion Hc as [|? ? Hx Hc']; subst.
  simpl. rewrite (finite_not_nan x Hx).
  assert (Hpeak : (if F.ltb p x then x else p) = x).
  { destruct (F.ltb p x) eqn:Hlt; [reflexivity|].
    apply leb_not_ltb_eq; auto. apply (nondecreasing_head _ _ _ Hm). }
  rewrite Hpeak. f_equal. apply IH; auto. apply (nondecreasing_tail _ _ Hm).
Qed.

Lemma expanding_max_monotone (c : Series) :
  Forall finite_nonzero c -> nondecreasing c -> expanding_max c = c.
Proof.
  intros Hc Hm. destruct c as [|x c]; [reflexivity|].
  inversion Hc as [|? ? Hx Hc']; subst.
  unfold expanding_max. simpl. rewrite (finite_not_nan x Hx). f_equal.
  apply expanding_max_from_monotone; auto.
Qed.

Lemma div_self_finite x : finite_nonzero x -> F.div x x = F.one.
Proof. destruct x; unfold finite_nonzero; simpl; try discriminate. intros _. apply div_self. Qed.

Lemma zip_div_self (c : Series) :
  Forall finite_nonzero c -> zip_with F.div c c = map (fun _ => F.one) c.
Proof.
  induction 1 as [|x c Hx Hc IH]; [reflexivity|].
  simpl. rewrite (div_self_finite x Hx), IH. reflexivity.
Qed.

Lemma min_zeros (n : nat) :
  fold_left (fun m y => if F.ltb y m then y else m) (repeat F.zero n) F.zero = F.zero.
Proof. induction n as [|n IH]; [reflexivity|]. simpl. exact IH. Qed.

Lemma dropna_zeros n : dropna (repeat F.zero n) = repeat F.zero n.
Proof. induction n as [|n IH]; [reflexivity|]. unfold dropna in *. simpl. rewrite IH. reflexivity. Qed.

Lemma Series_min_zeros n : Series_min (repeat F.zero (S n)) = F.zero.
Proof. unfold Series_min. rewrite dropna_zeros. simpl. apply min_zeros. Qed.

Lemma map_const_repeat {A B} (b : B) (l : list A) : map (fun _ => b) l = repeat b (length l).
Proof. induction l; simpl; congruence. Qed.

Lemma max_drawdown_of_cumulative (df : DataFrame) returns :
  df !! "returns" = Some returns ->
  calculate_max_drawdown df =
    let c := Series_cumprod (map (F.add F.one) returns) in
    Ok (F.abs (Series_min (map (fun q => F.sub q F.one) (zip_with F.div c (expanding_max c))))).
Proof. intros H. unfold calculate_max_drawdown, getitem. rewrite H. reflexivity. Qed.

Lemma max_drawdown_monotone (df : DataFrame) returns :
  df !! "returns" = Some returns ->
  let c := Series_cumprod (map (F.add F.one) returns) in
  c <> [] -> Forall finite_nonzero c -> nondecreasing c ->
  calculate_max_drawdown df = Ok F.zero.
Proof.
  intros H c Hne Hc Hm. rewrite (max_drawdown_of_cumulative df returns H).
  cbv zeta. fold c. rewrite (expanding_max_monotone c Hc Hm), (zip_div_self c Hc).
  rewrite map_map, map_const_repeat.
  change (F.sub F.one F.one) with F.zero.
  destruct c as [|x c']; [congruence|]. simpl length.
  rewrite Series_min_zeros. reflexivity.
Qed.

Lemma last_cons {A} (x d : A) (c : list A) : List.last (x :: c) d = List.last c x.
Proof.
  revert x d. induction c as [|y c IH]; intros x d; [reflexivity|].
  change (List.last (x :: y :: c) d) with (List.last (y :: c) d).
  rewrite (IH y d), (IH y x). reflexivity.
Qed.

Lemma expanding_max_from_rise_then (c : Series) (q h : float) :
  finite_nonzero q -> Forall finite_nonzero c -> nondecreasing (q :: c) ->
  F.is_nan h = false -> F.ltb (List.last c q) h = false ->
  expanding_max_from (Some q) (c ++ [h]) = c ++ [List.last c q].
Proof.
  revert q. induction c as [|x c IH]; intros q Hq Hc Hm Hh Hlt.
  - simpl in *. rewrite Hh, Hlt. reflexivity.
  - inversion Hc as [|? ? Hx Hc']; subst.
    change ((x :: c) ++ [h]) with (x :: (c ++ [h])).
    cbn [expanding_max_from]. rewrite (finite_not_nan x Hx).
    assert (Hpeak : (if F.ltb q x then x else q) = x).
    { destruct (F.ltb q x) eqn:E; [reflexivity|].
      apply leb_not_ltb_eq; auto. apply (nondecreasing_head _ _ _ Hm). }
    rewrite Hpeak. cbn [app]. f_equal.
    rewrite last_cons in *. apply IH; auto. apply (nondecreasing_tail _ _ Hm).
Qed.

Lemma expanding_max_rise_then (rise : Series) (p h : float) :
  List.last rise F.nan = p -> rise <> [] ->
  Forall finite_nonzero rise -> nondecreasing rise ->
  F.is_nan h = false -> F.ltb p h = false ->
  expanding_max (rise ++ [h]) = rise ++ [p].
Proof.
  intros Hl Hne Hc Hm Hh Hlt. destruct rise as [|x c]; [congruence|].
  inversion Hc as [|? ? Hx Hc']; subst.
  unfold expanding_max. change ((x :: c) ++ [h]) with (x :: (c ++ [h])).
  cbn [expanding_max_from]. rewrite (finite_not_nan x Hx). cbn [app]. f_equal.
  rewrite last_cons in *. apply expanding_max_from_rise_then; auto.
Qed.

Lemma min_zeros_then_neg_half (n : nat) :
  Series_min (repeat F.zero (S n) ++ [neg_half]) = neg_half.
Proof.
  unfold Series_min, dropna. rewrite List.filter_app.
  fold (dropna (repeat F.zero (S n))). rewrite dropna_zeros.
  simpl. rewrite fold_left_app, min_zeros. reflexivity.
Qed.

Lemma max_drawdown_halving (df : DataFrame) returns rise (m : positive) (e : Z) :
  df !! "returns" = Some returns ->
  Series_cumprod (map (F.add F.one) returns) = rise ++ [S754_finite false m e] ->
  List.last rise F.nan = S754_finite false m (e + 1) -> rise <> [] ->
  Forall finite_nonzero rise -> nondecreasing rise ->
  calculate_max_drawdown df = Ok F.half.
Proof.
  intros H Hc Hl Hne Hf Hm. rewrite (max_drawdown_of_cumulative df returns H).
  cbv zeta. rewrite Hc.
  rewrite (expanding_max_rise_then rise (S754_finite false m (e + 1)) (S754_finite false m e));
    auto.
  2:{ unfold F.ltb, SFltb, SFcompare. rewrite (proj2 (Z.compare_gt_iff (e + 1) e)) by lia.
      reflexivity. }
  rewrite zip_with_app by reflexivity. rewrite (zip_div_self rise Hf).
  cbn [zip_with]. rewrite div_half. rewrite map_app, map_map, map_const_repeat.
  change (F.sub F.one F.one) with F.zero. cbn [map].
  change (F.sub F.half F.one) with neg_half.
  destruct rise as [|x r]; [congruence|]. cbn [length].
  rewrite min_zeros_then_neg_half. reflexivity.
Qed.

Lemma sub_self (s : bool) (m : positive) (e : Z) :
  F.sub (S754_finite s m e) (S754_finite s m e) = F.zero.
Proof.
  unfold F.sub, SFsub. rewrite Z.min_id. unfold shl_align.
  replace (e - e) with 0 by lia. cbn [fst].
  match goal with |- binary_normalize _ _ ?z _ _ = _ => replace z with 0 by lia end.
  reflexivity.
Qed.

Lemma spec_drawdown_self x : finite_nonzero x -> is_zero (F.div (F.sub x x) x) = true.
Proof.
  destruct x as [| | |s m e]; unfold finite_nonzero, F.is_finite_nonzero;
    intros H; try discriminate H.
  rewrite sub_self. reflexivity.
Qed.

Lemma binary_round_valid (s : bool) (m : positive) (e : Z) :
  bounded F.prec F.emax m e = true ->
  binary_round F.prec F.emax s m e = S754_finite s m e.
Proof.
  unfold bounded, canonical_mantissa. intros H.
  apply andb_true_iff in H as [Hc Hb]. apply Z.eqb_eq in Hc.
  unfold binary_round.
  replace (fexp F.prec F.emax (Z.pos (digits2_pos m) + e)) with e by (symmetry; exact Hc).
  unfold shl_align. replace (e - e) with 0 by lia.
  unfold binary_round_aux, shr_fexp. cbn [Zdigits2 shr_record_of_loc].
  replace (fexp F.prec F.emax (Z.pos (digits2_pos m) + e)) with e by (symmetry; exact Hc).
  replace (e - e) with 0 by lia.
  cbn [shr shr_m loc_of_shr_record round_nearest_even Zdigits2 shr_record_of_loc].
  replace (fexp F.prec F.emax (Z.pos (digits2_pos m) + e)) with e by (symmetry; exact Hc).
  replace (e - e) with 0 by lia.
  cbn [shr shr_m]. 
  replace (e <=? F.emax - F.prec)%Z with true by (symmetry; exact Hb). reflexivity.
Qed.

Lemma sub_half_peak (m : positive) (e : Z) :
  bounded F.prec F.emax m e = true ->
  F.sub (S754_finite false m e) (S754_finite false m (e + 1)) = S754_finite true m e.
Proof.
  intros H. unfold F.sub, SFsub.
  replace (Z.min e (e + 1)) with e by lia. unfold shl_align.
  replace (e - e) with 0 by lia.
  replace (e - (e + 1)) with (-1) by lia.
  cbn [fst cond_Zopp]. change (PosDef.Pos.iter xO m 1) with (m~0)%positive.
  replace (Z.pos m - Z.pos m~0) with (Z.neg m) by lia.
  cbn [binary_normalize]. apply binary_round_valid. exact H.
Qed.

Lemma div_neg_half (m : positive) (e : Z) :
  F.div (S754_finite true m e) (S754_finite false m (e + 1)) = neg_half.
Proof.
  unfold F.div, SFdiv. rewrite div_core_half. vm_compute. reflexivity.
Qed.

Lemma spec_drawdowns_monotone (c : Series) :
  Forall finite_nonzero c -> nondecreasing c ->
  Forall (fun d => is_zero d = true) (spec_drawdowns c).
Proof.
  intros Hc Hm. unfold spec_drawdowns. rewrite (expanding_max_monotone c Hc Hm).
  induction Hc as [|x c Hx Hc IH]; [constructor|].
  cbn [zip_with]. constructor; [apply spec_drawdown_self; exact Hx|].
  apply IH. apply (nondecreasing_tail _ _ Hm).
Qed.

Lemma Series_min_all_zero (l : Series) :
  l <> [] -> Forall (fun d => is_zero d = true) l -> F.abs (Series_min l) = F.zero.
Proof.
  intros Hne Hz. unfold Series_min.
  assert (Hd : dropna l = l).
  { unfold dropna. induction Hz as [|x l Hx Hl IH]; [reflexivity|].
    simpl. destruct x; try discriminate. simpl. f_equal.
    destruct l; [reflexivity|]. apply IH. discriminate. }
  rewrite Hd. destruct Hz as [|x l Hx Hl]; [congruence|].
  assert (Hf : forall a, is_zero a = true ->
               is_zero (fold_left (fun m y => if F.ltb y m then y else m) l a) = true).
  { clear Hne Hd Hx. induction Hl as [|y l Hy Hl IH]; intros a Ha; [exact Ha|].
    simpl. apply IH. destruct (F.ltb y a); assumption. }
  specialize (Hf x Hx).
  destruct (fold_left _ l x); try discriminate. reflexivity.
Qed.

Lemma min_zeros_then (l : Series) (a : float) :
  is_zero a = true -> Forall (fun d => is_zero d = true) l ->
  fold_left (fun m y => if F.ltb y m then y else m) (l ++ [neg_half]) a = neg_half.
Proof.
  intros Ha Hl. revert a Ha. induction Hl as [|y l Hy Hl IH]; intros a Ha.
  - destruct a as [[]| | |]; try discriminate; reflexivity.
  - cbn [app fold_left]. apply IH. destruct (F.ltb y a); assumption.
Qed.

Lemma dropna_all_zero (l : Series) :
  Forall (fun d => is_zero d = true) l -> dropna l = l.
Proof.
  unfold dropna. induction 1 as [|x l Hx Hl IH]; [reflexivity|].
  cbn [List.filter]. destruct x; try discriminate. cbn. f_equal. exact IH.
Qed.

Lemma Series_min_zeros_then (l : Series) :
  l <> [] -> Forall (fun d => is_zero d = true) l ->
  Series_min (l ++ [neg_half]) = neg_half.
Proof.
  intros Hne Hl. unfold Series_min, dropna. rewrite List.filter_app.
  fold (dropna l). rewrite (dropna_all_zero l Hl).
  destruct Hl as [|x l Hx Hl]; [congruence|].
  cbn [List.filter F.is_nan neg_half negb app]. apply min_zeros_then; assumption.
Qed.

Lemma spec_drawdowns_halving (rise : Series) (m : positive) (e : Z) :
  List.last rise F.nan = S754_finite false m (e + 1) -> rise <> [] ->
  Forall finite_nonzero rise -> nondecreasing rise ->
  bounded F.prec F.emax m e = true ->
  F.abs (Series_min (spec_drawdowns (rise ++ [S754_finite false m e]))) = F.half.
Proof.
  intros Hl Hne Hf Hm Hb. unfold spec_drawdowns.
  rewrite (expanding_max_rise_then rise (S754_finite false m (e + 1)) (S754_finite false m e));
    auto.
  2:{ unfold F.ltb, SFltb, SFcompare. rewrite (proj2 (Z.compare_gt_iff (e + 1) e)) by lia.
      reflexivity. }
  rewrite zip_with_app by reflexivity. cbn [zip_with].
  rewrite (sub_half_peak m e Hb), div_neg_half.
  rewrite Series_min_zeros_then; [reflexivity| |].
  - destruct rise; [congruence|discriminate].
  - clear Hl Hne Hm. induction Hf as [|x c Hx Hc IH]; [constructor|].
    cbn [zip_with]. constructor; [apply spec_drawdown_self; exact Hx|exact IH].
Qed.



(** ** [calculate_metrics] *)

Lemma registry_get_In (r : Registry) (key : string) (o : PyObject) :
  registry_get r key = Some o -> In (key, o) r.
Proof.
  induction r as [|[k o'] r IH]; simpl; [discriminate|].
  destruct (String.eqb k key) eqn:E.
  - intros [= ->]. apply String.eqb_eq in E. subst. auto.
  - auto.
Qed.

(** No object of [AVAILABLE_METRICS] has an attribute [requires]. *)
Lemma AVAILABLE_METRICS_requires :
  Forall (fun ko => getattr ko.2 "requires"
                    = Raise (AttributeError "'Metric' object has no attribute 'requires'"))
    AVAILABLE_METRICS.
Proof. repeat constructor. Qed.

Lemma calculate_metric_raises (name : string) (self : BaseStrategy) :
  exists e, calculate_metric AVAILABLE_METRICS name self = (Raise e, self).
Proof.
  unfold calculate_metric.
  destruct (registry_get AVAILABLE_METRICS name) as [metric|] eqn:E; [|eauto].
  apply registry_get_In in E.
  pose proof (proj1 (List.Forall_forall _ _) AVAILABLE_METRICS_requires _ E) as H.
  simpl in H. rewrite H. simpl. eauto.
Qed.

Lemma calculate_metrics_loop_raises (name : string) (rest : list string)
    (self : BaseStrategy) :
  exists e, calculate_metrics_loop AVAILABLE_METRICS (name :: rest) self = (Raise e, self).
Proof.
  destruct (calculate_metric_raises name self) as [e H].
  exists e. simpl. rewrite H. reflexivity.
Qed.

(** What line 49 computes when the metric object has the attribute it
    reads: the [ValueError] names the missing columns, in order, and the
    instance is left as it was. *)
Lemma calculate_metric_missing_columns (registry : Registry) (name : string)
    (metric : PyObject) (cols : list string) (self : BaseStrategy) (df : DataFrame) :
  registry_get registry name = Some metric ->
  getattr metric "requires" = Ok (AColumns cols) ->
  data self = Some df ->
  List.filter (fun col => negb (in_columns col df)) cols <> [] ->
  calculate_metric registry name self =
    (Raise (ValueError ("Missing required columns for " +:+ name +:+ ": " +:+
                        repr_list (List.filter (fun col => negb (in_columns col df)) cols))),
     self).
Proof.
  intros Hget Hreq Hdata Hmiss. unfold calculate_metric.
  rewrite Hget, Hreq, Hdata. simpl.
  destruct (List.filter _ cols); [congruence|reflexivity].
Qed.

(** The loop stops at the first metric that raises: the metrics listed
    after it are not looked at. *)
Lemma calculate_metrics_loop_stops (registry : Registry) (name : string)
    (rest : list string) (self self' : BaseStrategy) (e : Exn) :
  calculate_metric registry name self = (Raise e, self') ->
  calculate_metrics_loop registry (name :: rest) self = (Raise e, self').
Proof. intros H. simpl. rewrite H. reflexivity. Qed.

Lemma calculate_metrics_raises (self : BaseStrategy) (name : string)
    (rest : list string) :
  exists e self',
    calculate_metrics (Some (name :: rest)) self = (Raise e, self') /\
    performance_metrics self' = performance_metrics self.
Proof.
  unfold calculate_metrics, calculate_metrics_with.
  destruct (data self) as [df|]; [|eauto].
  destruct (negb (in_columns "Signal" df)); [eauto|].
  destruct (add_return_columns df) as [df'|e]; [|eauto].
  unfold default, id.
  destruct (calculate_metrics_loop_raises name rest (with_data self df')) as [e H].
  rewrite H. exists e, (with_data self df'). split; reflexivity.
Qed.




(** ** The optimizers *)

Section OptimizerProperties.

Variable suggest : nat -> string -> string -> list PyVal -> Res PyVal.

(** A run that raises is caught: the objective returns [-inf], whatever
    the exception, and leaves the trial as it was. *)
Lemma objective_run_failure (self : StrategyOptimizer) (t : Trial)
    (strategy strategy' : Strategy) (e : Exn) :
  prepare suggest self t = Ok strategy ->
  run_strategy (strategy_class self) strategy = (Raise e, strategy') ->
  objective suggest self t = (Ok (Some F.neg_inf), t).
Proof. intros Hp Hr. unfold objective. rewrite Hp, Hr. reflexivity. Qed.

Lemma multi_objective_run_failure (self : MultiObjectiveOptimizer) (t : Trial)
    (strategy strategy' : Strategy) (e : Exn) :
  prepare suggest (parent self) t = Ok strategy ->
  run_strategy (strategy_class (parent self)) strategy = (Raise e, strategy') ->
  multi_objective suggest self t
  = (Ok (repeat (Some F.neg_inf) (length (objectives self))), t).
Proof. intros Hp Hr. unfold multi_objective. rewrite Hp, Hr. reflexivity. Qed.

Lemma length_trials_tell (study : Study) (t : Trial) (vs : list (option float)) :
  length (trials (tell study t vs)) = S (length (trials study)) /\
  directions (tell study t vs) = directions study.
Proof.
  unfold tell. destruct (all_numbers vs) as [l|];
    [destruct (length l =? length (directions study))%nat|];
    simpl; rewrite length_app; simpl; split; (lia || reflexivity).
Qed.

(** When no trial raises, the loop runs all the trials it was given. *)
Lemma study_optimize_runs_all (f : Trial -> Res (list (option float)) * Trial)
    (n : nat) (study : Study) :
  (forall t, exists vs t', f t = (Ok vs, t')) ->
  exists study',
    study_optimize f n study = (Ok (), study') /\
    length (trials study') = (length (trials study) + n)%nat /\
    directions study' = directions study.
Proof.
  intros Hf. revert study. induction n as [|n IH]; intros study.
  - exists study. simpl. repeat split. lia.
  - simpl. destruct (Hf {| number := length (trials study); user_attrs := ∅ |})
      as (vs & t' & ->).
    destruct (IH (tell study t' vs)) as (study' & H & Hl & Hd).
    destruct (length_trials_tell study t' vs) as [Hl' Hd'].
    exists study'. split; [exact H|]. split; [lia|congruence].
Qed.

(** [optimize] with either direction, whatever the polarity of the
    objective: the study is created with that direction and the trials run. *)
Lemma optimize_any_direction (self : StrategyOptimizer) (n : nat) (d : string) :
  d = "minimize" \/ d = "maximize" ->
  (forall t, exists v t', objective suggest self t = (Ok v, t')) ->
  exists study,
    optimize suggest self n d = Ok study /\
    length (trials study) = n /\
    directions study = [if String.eqb d "minimize" then MINIMIZE else MAXIMIZE].
Proof.
  intros Hd Hobj. unfold optimize.
  assert (Hc : create_study d
               = Ok {| directions := [if String.eqb d "minimize" then MINIMIZE else MAXIMIZE];
                       trials := [] |})
    by (destruct Hd as [-> | ->]; reflexivity).
  rewrite Hc. cbn.
  match goal with |- context [study_optimize ?f n ?s] =>
    destruct (study_optimize_runs_all f n s) as (study' & H & Hl & Hdir) end.
  { intros t. destruct (Hobj t) as (v & t' & ->). simpl. eauto. }
  rewrite H. exists study'. repeat split; assumption.
Qed.

End OptimizerProperties.

(** C2: a trial whose run raises is not fatal, and its value is negative
    infinity whatever the direction of the study: with [max_drawdown]
    minimized, the three trials of a strategy that always fails complete with
    the value [-inf], which is the best value of the study and beats [+inf];
    the multi-objective optimizer returns [-inf] for each objective, the
    minimized one included. *)
Theorem C2_failure_sentinel_ignores_direction :
  exists self study multi,
    StrategyOptimizer_init failing_strategy "X" "max_drawdown" None = Ok self /\
    objective suggest_first self trial0 = (Ok (Some F.neg_inf), trial0) /\
    optimize suggest_first self 3 "minimize" = Ok study /\
    directions study = [MINIMIZE] /\
    map state (trials study) = [COMPLETE; COMPLETE; COMPLETE] /\
    map values (trials study) = [[F.neg_inf]; [F.neg_inf]; [F.neg_inf]] /\
    option_map trial_value (best_trial study) = Some F.neg_inf /\
    better MINIMIZE F.neg_inf F.inf = true /\
    MultiObjectiveOptimizer_init failing_strategy "X" ["sharpe_ratio"; "max_drawdown"]
      = Ok multi /\
    directions_of (objectives multi) = Ok ["maximize"; "minimize"] /\
    multi_objective suggest_first multi trial0
      = (Ok [Some F.neg_inf; Some F.neg_inf], trial0).
Proof.
  eexists. eexists. eexists.
  split; [reflexivity|]. split; [reflexivity|]. split; [reflexivity|].
  split; [reflexivity|]. split; [reflexivity|]. split; [reflexivity|].
  split; [reflexivity|]. split; [reflexivity|]. split; [reflexivity|].
  split; reflexivity.
Qed.

(** ** Indexing and the elitism loop *)

Lemma index_Ok {A} (l : list A) (i : nat) (x : A) : index l i = Ok x <-> l !! i = Some x.
Proof. unfold index. destruct (l !! i); split; congruence. Qed.

Lemma index_Raise {A} (l : list A) (i : nat) :
  (length l <= i)%nat -> index l i = Raise (IndexError "list index out of range").
Proof. intros H. unfold index. rewrite (lookup_ge_None_2 l i H). reflexivity. Qed.

Lemma ndarray_index_Ok {A} (l : list A) (i : nat) (x : A) :
  ndarray_index l i = Ok x <-> l !! i = Some x.
Proof. unfold ndarray_index. destruct (l !! i); split; congruence. Qed.

Lemma ndarray_index_Raise {A} (l : list A) (i : nat) :
  (length l <= i)%nat ->
  ndarray_index l i
  = Raise (IndexError ("index " +:+ pretty i +:+ " is out of bounds for axis 0 with size "
                       +:+ pretty (length l))).
Proof. intros H. unfold ndarray_index. rewrite (lookup_ge_None_2 l i H). reflexivity. Qed.

Section Elites.
Context {Individual : Type}.
Implicit Types (population : list Individual) (sorted_indices : list nat).

Lemma elites_length population sorted_indices i count l :
  elites population sorted_indices i count = Ok l -> length l = count.
Proof.
  revert i l. induction count as [|c IH]; intros i l; simpl.
  - intros [= <-]. reflexivity.
  - destruct (ndarray_index sorted_indices i) as [idx|]; simpl; [|discriminate].
    destruct (index population idx) as [ind|]; simpl; [|discriminate].
    destruct (elites population sorted_indices (S i) c) as [rest|] eqn:E; simpl;
      [|discriminate].
    intros [= <-]. simpl. f_equal. eauto.
Qed.

(** The [k]-th elite is the individual at the [k]-th sorted position. *)
Lemma elites_lookup population sorted_indices i count l k x :
  elites population sorted_indices i count = Ok l -> l !! k = Some x ->
  exists idx, sorted_indices !! (i + k)%nat = Some idx /\ population !! idx = Some x.
Proof.
  revert i l k. induction count as [|c IH]; intros i l k; simpl.
  - intros [= <-]. rewrite lookup_nil. discriminate.
  - destruct (ndarray_index sorted_indices i) as [idx|] eqn:E1; simpl; [|discriminate].
    destruct (index population idx) as [ind|] eqn:E2; simpl; [|discriminate].
    destruct (elites population sorted_indices (S i) c) as [rest|] eqn:E; simpl;
      [|discriminate].
    intros [= <-]. destruct k as [|k]; simpl.
    + intros [= <-]. exists idx. rewrite Nat.add_0_r.
      split; [apply ndarray_index_Ok|apply index_Ok]; assumption.
    + intros Hk. destruct (IH (S i) rest k E Hk) as (j & Hj & Hx).
      exists j. split; [|exact Hx]. rewrite <- Hj. f_equal. lia.
Qed.

Lemma elites_within population sorted_indices i count l :
  elites population sorted_indices i count = Ok l ->
  (count = 0 \/ i + count <= length sorted_indices)%nat.
Proof.
  revert i l. induction count as [|c IH]; intros i l; simpl; [auto|].
  destruct (ndarray_index sorted_indices i) as [idx|] eqn:E1; simpl; [|discriminate].
  destruct (index population idx) as [ind|] eqn:E2; simpl; [|discriminate].
  destruct (elites population sorted_indices (S i) c) as [rest|] eqn:E; simpl;
    [|discriminate].
  intros _. right. apply ndarray_index_Ok, lookup_lt_Some in E1.
  destruct (IH (S i) rest E) as [->|H]; lia.
Qed.

(** More elites than sorted positions: numpy's [IndexError], once the
    positions there are have been read. *)
Lemma elites_short population sorted_indices i count :
  Forall (fun idx => (idx < length population)%nat) sorted_indices ->
  (i <= length sorted_indices < i + count)%nat ->
  elites population sorted_indices i count
  = Raise (IndexError ("index " +:+ pretty (length sorted_indices)
                       +:+ " is out of bounds for axis 0 with size "
                       +:+ pretty (length sorted_indices))).
Proof.
  intros Hidx. revert i. induction count as [|c IH]; intros i Hi; [lia|].
  simpl. destruct (decide (i = length sorted_indices)) as [->|Hne].
  - rewrite ndarray_index_Raise by lia. reflexivity.
  - destruct (lookup_lt_is_Some_2 sorted_indices i ltac:(lia)) as [idx Hl].
    rewrite (proj2 (ndarray_index_Ok _ _ _) Hl). simpl.
    pose proof (proj1 (Forall_lookup _ _) Hidx i idx Hl) as Hlt. simpl in Hlt.
    destruct (lookup_lt_is_Some_2 population idx Hlt) as [ind Hp].
    rewrite (proj2 (index_Ok _ _ _) Hp). simpl.
    rewrite IH by lia. reflexivity.
Qed.

End Elites.

(** ** The genetic engine *)

(** The configuration of the engine: what a generation leaves unchanged. *)
Lemma argmax_from_lt (l : list float) (best_i i : nat) (best : float) :
  (best_i < i)%nat -> (argmax_from best_i best i l < i + length l)%nat.
Proof.
  revert best_i best i. induction l as [|x l IH]; intros best_i best i Hlt; simpl; [lia|].
  destruct (F.is_nan best); [lia|].
  destruct (F.is_nan x || F.ltb best x).
  - specialize (IH i x (S i) ltac:(lia)). lia.
  - specialize (IH best_i best (S i) ltac:(lia)). lia.
Qed.

Lemma np_argmax_lt (l : list float) (i : nat) :
  np_argmax l = Ok i -> (i < length l)%nat.
Proof.
  destruct l as [|x l]; simpl; [discriminate|]. intros [= <-].
  pose proof (argmax_from_lt l 0 1 x ltac:(lia)). lia.
Qed.

Section GeneticProperties.

Context {Individual U : Type}.
Variable evaluate_fitness : Individual -> Method (World U) float.
Variable crossover : Individual -> Individual -> Method (World U) Individual.
Variable mutate : Individual -> Method (World U) Individual.
Variable np_argsort : list float -> list nat.
Variable np_mean : list float -> float.

Lemma for_each_length {A B} (f : A -> W U B) (l : list A) (w w' : World U)
    (ys : list B) :
  for_each f l w = (Ok ys, w') -> length ys = length l.
Proof.
  revert w ys. induction l as [|x l IH]; intros w ys; simpl.
  - intros [= <- _]. reflexivity.
  - unfold mbind, W_bind. destruct (f x w) as [[y|e] w1]; [|discriminate].
    destruct (for_each f l w1) as [[ys'|e] w2] eqn:E; [|discriminate].
    unfold mret, W_ret. intros [= <- <-]. simpl. f_equal. eauto.
Qed.

(** The filling loop keeps what it was given and appends one child per pass. *)
Lemma fill_extends (self : GeneticStrategy Individual) (new_population l : list Individual)
    (remaining : nat) (w w' : World U) :
  fill evaluate_fitness crossover mutate self new_population remaining w = (Ok l, w') ->
  exists children, l = new_population ++ children /\ length children = remaining.
Proof.
  revert new_population w. induction remaining as [|r IH]; intros new_population w; simpl.
  - intros [= <- _]. exists []. rewrite app_nil_r. auto.
  - unfold mbind, W_bind.
    destruct (make_child evaluate_fitness crossover mutate self w) as [[child|e] w1];
      [|discriminate].
    intros H. destruct (IH _ _ H) as (children & -> & Hlen).
    exists (child :: children). rewrite <- app_assoc. simpl. auto.
Qed.

(** The loop as written, with its test, agrees with the count of passes. *)
Lemma fill_while_fill (self : GeneticStrategy Individual)
    (new_population : list Individual) (fuel : nat) (w : World U) :
  (missing self new_population <= fuel)%nat ->
  fill_while evaluate_fitness crossover mutate self new_population fuel w
  = Some (fill evaluate_fitness crossover mutate self new_population
            (missing self new_population) w).
Proof.
  revert new_population w. induction fuel as [|fuel IH]; intros new_population w Hle.
  - simpl. unfold missing in *.
    destruct (Z.ltb_spec (Z.of_nat (length new_population)) (population_size self)); [lia|].
    replace (Z.to_nat _) with O by lia. reflexivity.
  - simpl. unfold missing in *.
    destruct (Z.ltb_spec (Z.of_nat (length new_population)) (population_size self)) as [Hlt|Hge].
    + replace (Z.to_nat (population_size self - Z.of_nat (length new_population)))
        with (S (Z.to_nat (population_size self
                           - Z.of_nat (length new_population) - 1))) by lia.
      simpl. unfold mbind, W_bind.
      destruct (make_child evaluate_fitness crossover mutate self w) as [[child|e] w1];
        [|reflexivity].
      rewrite IH; rewrite length_app; simpl; [|lia].
      do 3 f_equal. lia.
    + replace (Z.to_nat _) with O by lia. reflexivity.
Qed.

End GeneticProperties.

Section GenerationProperties.

Context {Individual U : Type}.
Variable evaluate_fitness : Individual -> Method (World U) float.
Variable crossover : Individual -> Individual -> Method (World U) Individual.
Variable mutate : Individual -> Method (World U) Individual.
Variable np_argsort : list float -> list nat.
Variable np_mean : list float -> float.

(** What a generation that returns has done: the fitness of every individual
    was computed, the elites were read through the reversed [argsort], and the
    loop appended the missing children; the configuration is unchanged. *)
Lemma generation_inv (self self' : GeneticStrategy Individual) (w w' : World U) :
  generation evaluate_fitness crossover mutate np_argsort np_mean self w = (Ok self', w') ->
  exists scores w1 new_population children,
    for_each (fun ind => hook (evaluate_fitness ind)) (population self) w = (Ok scores, w1)
    /\ elites (population self) (rev (np_argsort scores)) 0
         (Z.to_nat (elite_size self)) = Ok new_population
    /\ population self' = new_population ++ children
    /\ length children = missing self new_population
    /\ population_size self' = population_size self
    /\ elite_size self' = elite_size self
    /\ generations self' = generations self
    /\ crossover_rate self' = crossover_rate self
    /\ mutation_rate self' = mutation_rate self.
Proof.
  unfold generation.
  destruct (for_each _ (population self) w) as [[scores|e] w1]; [|discriminate].
  destruct (np_argmax scores) as [best_idx|e]; [|discriminate].
  unfold mbind, W_bind, mret, W_ret.
  match goal with
  | |- context [match ?m w1 with _ => _ end] => destruct (m w1) as [[b|e] w2] eqn:Eb
  end; [|discriminate].
  destruct b.
  - unfold lift. destruct (index (population self) best_idx) as [x|e] eqn:Ex; [|discriminate].
    simpl.
    destruct (elites (population self) (rev (np_argsort scores)) 0
                (Z.to_nat (elite_size self))) as [el|e] eqn:Eel; [|discriminate].
    match goal with
    | |- context [fill _ _ _ ?s ?np ?r ?w] =>
        destruct (fill evaluate_fitness crossover mutate s np r w) as [[l|e] w3] eqn:Ef
    end; [|discriminate].
    intros [= <- <-]. simpl.
    destruct (fill_extends _ _ _ _ _ _ _ _ _ Ef) as (children & -> & Hlen).
    exists scores, w1, el, children. repeat split; auto.
  - simpl. unfold lift.
    destruct (elites (population self) (rev (np_argsort scores)) 0
                (Z.to_nat (elite_size self))) as [el|e] eqn:Eel; [|discriminate].
    match goal with
    | |- context [fill _ _ _ ?s ?np ?r ?w] =>
        destruct (fill evaluate_fitness crossover mutate s np r w) as [[l|e] w3] eqn:Ef
    end; [|discriminate].
    intros [= <- <-]. simpl.
    destruct (fill_extends _ _ _ _ _ _ _ _ _ Ef) as (children & -> & Hlen).
    exists scores, w1, el, children. repeat split; auto.
Qed.

End GenerationProperties.

Section RunProperties.

Context {Individual U : Type}.
Variable initialize_population : Method (World U) (list Individual).
Variable evaluate_fitness : Individual -> Method (World U) float.
Variable crossover : Individual -> Individual -> Method (World U) Individual.
Variable mutate : Individual -> Method (World U) Individual.
Variable np_argsort : list float -> list nat.
Variable np_mean : list float -> float.

(** The population a generation returns has the configured size, when the
    elites fit in it. *)
Lemma generation_length (self self' : GeneticStrategy Individual) (w w' : World U) :
  0 <= population_size self -> elite_size self <= population_size self ->
  generation evaluate_fitness crossover mutate np_argsort np_mean self w = (Ok self', w') ->
  Z.of_nat (length (population self')) = population_size self.
Proof.
  intros HP HE H.
  destruct (generation_inv _ _ _ _ _ _ _ _ _ H)
    as (scores & w1 & el & children & _ & Hel & -> & Hlen & _).
  apply elites_length in Hel. rewrite length_app, Hlen. unfold missing. lia.
Qed.

Lemma generations_loop_inv (n : nat) (self self' : GeneticStrategy Individual)
    (w w' : World U) :
  generations_loop evaluate_fitness crossover mutate np_argsort np_mean n self w
  = (Ok self', w') ->
  population_size self' = population_size self /\
  elite_size self' = elite_size self /\
  (0 <= population_size self -> elite_size self <= population_size self ->
   (0 < n)%nat -> Z.of_nat (length (population self')) = population_size self).
Proof.
  revert self w. induction n as [|n IH]; intros self w; simpl.
  - intros [= <- _]. repeat split. lia.
  - unfold mbind, W_bind.
    destruct (generation evaluate_fitness crossover mutate np_argsort np_mean self w)
      as [[self1|e] w1] eqn:Hg; [|discriminate].
    intros Hl. destruct (IH _ _ Hl) as (HP & HE & Hlen).
    destruct (generation_inv _ _ _ _ _ _ _ _ _ Hg)
      as (_ & _ & _ & _ & _ & _ & _ & _ & HP1 & HE1 & _).
    split; [congruence|]. split; [congruence|].
    intros H0 H1 _. destruct n as [|n].
    + simpl in Hl. injection Hl as <- _. eapply generation_length; eauto.
    + rewrite Hlen; [congruence|lia|lia|lia].
Qed.

(** The first generation of a run, up to the elitism loop: the fitness of
    every individual is computed and the best one recorded. *)
Lemma generation_first (self : GeneticStrategy Individual) (w w1 : World U)
    (scores : list float) :
  best_individual self = None -> population self <> [] ->
  for_each (fun ind => hook (evaluate_fitness ind)) (population self) w = (Ok scores, w1) ->
  exists b,
    generation evaluate_fitness crossover mutate np_argsort np_mean self w
    = let self2 := append_fitness_history (set_best_individual self b) (np_mean scores) in
      match elites (population self) (rev (np_argsort scores)) 0
              (Z.to_nat (elite_size self)) with
      | Raise e => (Raise e, w1)
      | Ok new_population =>
          match fill evaluate_fitness crossover mutate self2 new_population
                  (missing self new_population) w1 with
          | (Ok l, w2) => (Ok (set_population self2 l), w2)
          | (Raise e, w2) => (Raise e, w2)
          end
      end.
Proof.
  intros Hbest Hne Hfor. unfold generation. rewrite Hfor.
  pose proof (for_each_length _ _ _ _ _ Hfor) as Hlen.
  destruct (np_argmax scores) as [best_idx|e] eqn:Hmax.
  - apply np_argmax_lt in Hmax. rewrite Hbest.
    destruct (lookup_lt_is_Some_2 (population self) best_idx ltac:(lia)) as [b Hb].
    exists b. unfold mbind, W_bind, mret, W_ret, lift.
    rewrite (proj2 (index_Ok _ _ _) Hb). simpl.
    destruct (elites _ _ _ _); reflexivity.
  - destruct scores; [|discriminate Hmax].
    destruct (population self); [congruence|discriminate Hlen].
Qed.

(** A draw that takes the crossover branch in a population of fewer than
    three: the child is never made. *)
Lemma make_child_small_population (self : GeneticStrategy Individual) (w : World U) :
  (length (population self) < 3)%nat ->
  F.ltb (random_random (rng w)).1 (crossover_rate self) = true ->
  make_child evaluate_fitness crossover mutate self w
  = (Raise (ValueError "Sample larger than population or is negative"),
     {| rng := advance (rng w); user := user w |}).
Proof.
  intros Hlen Hdraw. unfold make_child, mbind, W_bind, random, with_rng.
  unfold random_random in *. simpl in *. rewrite Hdraw.
  unfold select_parents, select_parent, mbind, W_bind, sample, with_rng_res, random_sample.
  simpl. destruct (Nat.ltb_spec (length (population self)) tournament_size) as [_|H];
    [reflexivity|unfold tournament_size in H; lia].
Qed.

End RunProperties.



(** C10: in a population of fewer than three individuals [select_parents]
    raises the [ValueError] of [random.sample] and leaves the world as it
    was; the loop that fills the next generation then raises it at the first
    draw that takes the crossover branch, and so does the first generation
    of a run once the fitness is evaluated and the elites are copied. *)
Theorem C10_small_population_aborts {Individual U : Type}
    (evaluate_fitness : Individual -> Method (World U) float)
    (crossover : Individual -> Individual -> Method (World U) Individual)
    (mutate : Individual -> Method (World U) Individual)
    (np_argsort : list float -> list nat) (np_mean : list float -> float)
    (self : GeneticStrategy Individual) (w : World U) :
  (length (population self) < 3)%nat ->
  let error := ValueError "Sample larger than population or is negative" in
  select_parents evaluate_fitness self w = (Raise error, w) /\
  (forall new_population remaining,
      F.ltb (random_random (rng w)).1 (crossover_rate self) = true ->
      fill evaluate_fitness crossover mutate self new_population (S remaining) w
      = (Raise error, {| rng := advance (rng w); user := user w |})) /\
  (forall scores w1 new_population,
      best_individual self = None -> population self <> [] ->
      for_each (fun ind => hook (evaluate_fitness ind)) (population self) w
      = (Ok scores, w1) ->
      elites (population self) (rev (np_argsort scores)) 0 (Z.to_nat (elite_size self))
      = Ok new_population ->
      (0 < missing self new_population)%nat ->
      F.ltb (random_random (rng w1)).1 (crossover_rate self) = true ->
      generation evaluate_fitness crossover mutate np_argsort np_mean self w
      = (Raise error, {| rng := advance (rng w1); user := user w1 |})).
Proof.
  intros Hlen error. split; [|split].
  - unfold select_parents, select_parent, mbind, W_bind, sample, with_rng_res,
      random_sample.
    destruct (Nat.ltb_spec (length (population self)) tournament_size) as [_|H];
      [destruct w; reflexivity|unfold tournament_size in H; lia].
  - intros np r Hdraw. simpl. unfold mbind, W_bind.
    rewrite (make_child_small_population _ _ _ _ _ Hlen Hdraw). reflexivity.
  - intros scores w1 el Hbest Hne Hfor Hel Hmiss Hdraw.
    destruct (generation_first evaluate_fitness crossover mutate np_argsort np_mean
                self w w1 scores Hbest Hne Hfor) as (b & ->).
    cbv zeta. rewrite Hel.
    destruct (missing self el) as [|r]; [lia|]. simpl. unfold mbind, W_bind.
    rewrite make_child_small_population; [reflexivity|exact Hlen|exact Hdraw].
Qed.

Lemma C10_small_population_aborts_witness :
  let self := set_population (GeneticStrategy_init Z 2 2 F.half F.half 1) [5; 1] in
  select_parents counting_fitness self (world0 0)
  = (Raise (ValueError "Sample larger than population or is negative"), world0 0)
  /\ generation counting_fitness first_parent increment stable_argsort sequential_mean
       self (world0 0)
     = (Raise (ValueError "Sample larger than population or is negative"),
        {| rng := advance (constant_rng 0); user := 2%nat |})
  /\ (evolve (fixed_population [5; 1]) counting_fitness first_parent increment
        stable_argsort sequential_mean (GeneticStrategy_init Z 2 2 F.half F.half 1)
        (world0 0)).1
     = Raise (ValueError "Sample larger than population or is negative").
Proof.
  intros self.
  pose proof (C10_small_population_aborts counting_fitness first_parent increment
                stable_argsort sequential_mean self (world0 0)
                ltac:(simpl; lia)) as (H1 & _ & H3).
  split; [exact H1|]. split.
  - apply (H3 [peak_fitness 5; peak_fitness 1]
              {| rng := constant_rng 0; user := 2%nat |} [1]).
    + reflexivity.
    + discriminate.
    + reflexivity.
    + vm_compute. reflexivity.
    + vm_compute. lia.
    + vm_compute. reflexivity.
  - vm_compute. reflexivity.
Defined.




(** ** Assigning attributes by name *)

Lemma hasattr_setattr (self : gmap string PyVal) (k key : string) (v : PyVal) :
  hasattr self key = true -> hasattr (setattr self k v) key = true.
Proof.
  unfold hasattr, setattr. intros H. apply orb_true_iff in H as [H|H].
  - apply bool_decide_eq_true in H. apply orb_true_iff. left.
    apply bool_decide_eq_true. destruct (decide (k = key)) as [->|Hne].
    + rewrite lookup_insert_eq. eauto.
    + rewrite lookup_insert_ne by assumption. exact H.
  - rewrite H. apply orb_true_r.
Qed.

(** The loop of [set_parameters]: the attributes it assigns, the names it
    skips and the ones it does not touch. *)
Lemma set_parameters_loop (parameters : Parameters) (self : gmap string PyVal) :
  NoDup (map fst parameters) ->
  let self' :=
    fold_left (fun self kv => if hasattr self kv.1 then setattr self kv.1 kv.2 else self)
      parameters self in
  (forall key value, In (key, value) parameters -> hasattr self key = true ->
                     self' !! key = Some value) /\
  (forall key, hasattr self key = false -> self' !! key = None) /\
  (forall key, ~ In key (map fst parameters) -> self' !! key = self !! key).
Proof.
  revert self. induction parameters as [|[k v] rest IH]; intros self Hnd; simpl.
  - split; [intros ? ? []|]. split; [|reflexivity].
    intros key H. unfold hasattr in H. apply orb_false_iff in H as [H _].
    apply bool_decide_eq_false in H. destruct (self !! key); [|reflexivity].
    exfalso. apply H. eauto.
  - apply NoDup_cons in Hnd as [Hk Hnd]. rewrite list_elem_of_In in Hk.
    apply NoDup_ListNoDup in Hnd as Hnd'.
    specialize (IH (if hasattr self k then setattr self k v else self) Hnd).
    simpl in IH. destruct IH as (IH1 & IH2 & IH3). split; [|split].
    + intros key value [[= <- <-]|Hin] Hattr.
      * rewrite IH3 by exact Hk. rewrite Hattr. unfold setattr.
        apply lookup_insert_eq.
      * apply IH1; [exact Hin|]. destruct (hasattr self k); [|exact Hattr].
        apply hasattr_setattr. exact Hattr.
    + intros key Hattr. apply IH2. destruct (hasattr self k) eqn:Hk'; [|exact Hattr].
      destruct (decide (k = key)) as [->|Hne]; [congruence|].
      unfold hasattr, setattr in *. rewrite lookup_insert_ne by assumption. exact Hattr.
    + intros key Hnot. rewrite IH3 by tauto.
      destruct (hasattr self k); [|reflexivity].
      unfold setattr. apply lookup_insert_ne. tauto.
Qed.




(** Reading a reversed list. *)
Lemma rev_lookup_Some {A} (l : list A) (k : nat) (x : A) :
  rev l !! k = Some x -> (k < length l)%nat /\ l !! (length l - S k)%nat = Some x.
Proof.
  revert k. induction l as [|a l IH]; intros k; simpl.
  - rewrite lookup_nil. discriminate.
  - intros H. destruct (decide (k < length l)%nat) as [Hlt|Hge].
    + rewrite lookup_app_l in H by (rewrite length_rev; exact Hlt).
      destruct (IH k H) as [_ Hl]. split; [lia|].
      replace (length l - k)%nat with (S (length l - S k)) by lia. exact Hl.
    + rewrite lookup_app_r in H by (rewrite length_rev; lia).
      rewrite length_rev in H.
      destruct (k - length l)%nat as [|d] eqn:Hd; [|destruct d; discriminate H].
      injection H as <-. split; [lia|].
      replace (length l - k)%nat with 0%nat by lia. reflexivity.
Qed.




(** ** The order of the comparisons *)

Lemma comparison_is_Lt (c : comparison) :
  match c with Lt => true | _ => false end = true <-> c = Lt.
Proof. destruct c; split; congruence. Qed.

Lemma lexicographic_Lt (e e' : Z) (m m' : positive) :
  match Z.compare e e' with
  | Lt => Lt | Gt => Gt | Eq => Pos.compare_cont Eq m m'
  end = Lt <-> (e < e' \/ (e = e' /\ (m < m')%positive)).
Proof.
  change (Pos.compare_cont Eq m m') with (Pos.compare m m').
  destruct (Z.compare_spec e e'); destruct (Pos.compare_spec m m');
    split; intros H'; try discriminate; try reflexivity; try lia.
Qed.

Lemma lexicographic_opp_Lt (e e' : Z) (m m' : positive) :
  match Z.compare e e' with
  | Lt => Gt | Gt => Lt | Eq => CompOpp (Pos.compare_cont Eq m m')
  end = Lt <-> (e' < e \/ (e = e' /\ (m' < m)%positive)).
Proof.
  change (Pos.compare_cont Eq m m') with (Pos.compare m m').
  destruct (Z.compare_spec e e'); destruct (Pos.compare_spec m m');
    split; simpl; intros H'; try discriminate; try reflexivity; try lia.
Qed.

(** [<] on floats is transitive. *)
Lemma ltb_trans (a b c : float) :
  F.ltb a b = true -> F.ltb b c = true -> F.ltb a c = true.
Proof.
  unfold F.ltb, SFltb.
  destruct a as [sa|sa| |sa ma ea], b as [sb|sb| |sb mb eb], c as [sc|sc| |sc mc ec];
    try destruct sa; try destruct sb; try destruct sc; simpl;
    try discriminate; try reflexivity; intros H1 H2;
    apply comparison_is_Lt in H1; apply comparison_is_Lt in H2;
    apply comparison_is_Lt.
  - apply lexicographic_opp_Lt in H1. apply lexicographic_opp_Lt in H2.
    apply lexicographic_opp_Lt. lia.
  - apply lexicographic_Lt in H1. apply lexicographic_Lt in H2.
    apply lexicographic_Lt. lia.
Qed.

(** A key above the best one so far is above all the keys that one was
    not below. *)
Lemma gtb_replaces (k kbest y : float) :
  F.gtb k kbest = true -> F.gtb y kbest = false -> F.gtb y k = false.
Proof.
  unfold F.gtb. intros H1 H2. destruct (SFltb k y) eqn:H3; [|reflexivity].
  rewrite <- H2. symmetry. apply (ltb_trans kbest k y); assumption.
Qed.

Lemma ltb_irrefl (a : float) : F.ltb a a = false.
Proof.
  destruct (F.ltb a a) eqn:H; [|reflexivity]. exfalso. revert H.
  unfold F.ltb, SFltb. destruct a as [s|s| |s m e]; try destruct s; simpl;
    try discriminate; intros H; apply comparison_is_Lt in H.
  - apply lexicographic_opp_Lt in H. lia.
  - apply lexicographic_Lt in H. lia.
Qed.

(** ** [random.sample] draws without replacement *)

(** The draw does not look at the entries of the pool. *)
Lemma sample_pool_fmap {A B} (f : A -> B) (pool : list A) (k : nat) (g : Rng) :
  sample_pool (f <$> pool) k g
  = (f <$> (sample_pool pool k g).1, (sample_pool pool k g).2).
Proof.
  revert pool g. induction k as [|k IH]; intros pool g; simpl; [reflexivity|].
  rewrite length_fmap, list_lookup_fmap, fmap_last.
  destruct (pool !! N.to_nat (g 0%nat mod N.of_nat (length pool))) as [x|]; simpl;
    [|reflexivity].
  destruct (last pool) as [l|]; simpl; [|reflexivity].
  rewrite <- list_fmap_insert, <- fmap_take, IH.
  destruct (sample_pool _ k (advance g)) as [rest g'']. reflexivity.
Qed.

(** What is left of a pool without repetitions once an entry is drawn: the
    other entries, without repetitions. *)
Lemma pool_after_draw {A} (pool : list A) (j : nat) (x l : A) :
  NoDup pool -> pool !! j = Some x -> last pool = Some l ->
  (let pool' := take (length pool - 1) (<[j := l]> pool) in
   NoDup pool' /\ (x ∉ pool') /\ pool' ⊆ pool /\ length pool' = (length pool - 1)%nat).
Proof.
  intros Hnd Hj Hl. destruct (last_Some pool l) as [[init ->] _]; [exact Hl|].
  rewrite length_app. simpl.
  replace (length init + 1 - 1)%nat with (length init) by lia.
  apply NoDup_app in Hnd as (Hinit & Hdisj & _).
  assert (Hlinit : l ∉ init) by (intros Hin; apply (Hdisj l Hin); left).
  destruct (decide (j < length init)%nat) as [Hlt|Hge].
  - rewrite lookup_app_l in Hj by exact Hlt.
    rewrite insert_app_l by exact Hlt. rewrite take_app_length'
      by (rewrite length_insert; reflexivity).
    simpl. destruct (list_elem_of_split_length init j x Hj) as (a & b & -> & Hja).
    rewrite insert_app_r_alt by lia. replace (j - length a)%nat with 0%nat by lia.
    simpl. apply NoDup_app in Hinit as (Ha & Hab & Hb).
    apply NoDup_cons in Hb as [Hxb Hb].
    assert (Hxa : x ∉ a) by (intros Hin; apply (Hab x Hin); left).
    assert (Hxl : x <> l)
      by (intros ->; apply Hlinit; apply elem_of_app; right; left).
    split; [|split; [|split]].
    + apply NoDup_app. split; [exact Ha|]. split.
      * intros y Hy Hy'. apply elem_of_cons in Hy' as [->|Hy'].
        -- apply Hlinit. apply elem_of_app. left. exact Hy.
        -- apply (Hab y Hy). right. exact Hy'.
      * apply NoDup_cons. split; [|exact Hb].
        intros Hin. apply Hlinit. apply elem_of_app. right. right. exact Hin.
    + intros Hin. apply elem_of_app in Hin as [Hin|Hin]; [tauto|].
      apply elem_of_cons in Hin as [Hin|Hin]; [tauto|tauto].
    + intros y Hy. apply elem_of_app in Hy as [Hy|Hy].
      * apply elem_of_app. left. apply elem_of_app. left. exact Hy.
      * apply elem_of_cons in Hy as [->|Hy].
        -- apply elem_of_app. right. left.
        -- apply elem_of_app. left. apply elem_of_app. right. right. exact Hy.
    + rewrite !length_app. simpl. reflexivity.
  - assert (Hjeq : j = length init).
    { apply lookup_lt_Some in Hj. rewrite length_app in Hj. simpl in Hj. lia. }
    subst j. rewrite lookup_app_r in Hj by lia.
    replace (length init - length init)%nat with 0%nat in Hj by lia.
    simpl in Hj. injection Hj as <-.
    rewrite insert_app_r_alt by lia.
    replace (length init - length init)%nat with 0%nat by lia. simpl.
    rewrite take_app_length. simpl.
    split; [exact Hinit|]. split; [exact Hlinit|]. split; [|reflexivity].
    intros y Hy. apply elem_of_app. left. exact Hy.
Qed.

Lemma sample_pool_NoDup {A} (pool : list A) (k : nat) (g : Rng) :
  NoDup pool -> (k <= length pool)%nat ->
  NoDup (sample_pool pool k g).1 /\
  length (sample_pool pool k g).1 = k /\
  (sample_pool pool k g).1 ⊆ pool.
Proof.
  revert pool g. induction k as [|k IH]; intros pool g Hnd Hk; simpl.
  - split; [constructor|]. split; [reflexivity|]. intros y Hy. inversion Hy.
  - assert (Hj : (N.to_nat (g 0%nat mod N.of_nat (length pool)) < length pool)%nat).
    { pose proof (N.mod_lt (g 0%nat) (N.of_nat (length pool))). lia. }
    destruct (lookup_lt_is_Some_2 pool _ Hj) as [x Hx]. rewrite Hx.
    destruct (last pool) as [l|] eqn:Hl.
    2:{ apply last_None in Hl. subst pool. simpl in Hk. lia. }
    destruct (pool_after_draw pool _ x l Hnd Hx Hl) as (Hnd' & Hx' & Hsub & Hlen).
    specialize (IH _ (advance g) Hnd' ltac:(lia)).
    destruct (sample_pool _ k (advance g)) as [rest g''] eqn:Hs. simpl in *.
    destruct IH as (IH1 & IH2 & IH3). split; [|split].
    + apply NoDup_cons. split; [|exact IH1]. intros Hin. apply Hx'. apply IH3. exact Hin.
    + f_equal. exact IH2.
    + intros y Hy. apply elem_of_cons in Hy as [->|Hy].
      * eapply list_elem_of_lookup_2. exact Hx.
      * apply Hsub. apply IH3. exact Hy.
Qed.

Lemma positions_fmap {A} (population : list A) :
  (fun i => population !! i) <$> seq 0 (length population) = Some <$> population.
Proof.
  apply list_eq. intros i. rewrite !list_lookup_fmap.
  destruct (decide (i < length population)%nat) as [Hlt|Hge].
  - rewrite lookup_seq_lt by exact Hlt. simpl.
    destruct (lookup_lt_is_Some_2 population i Hlt) as [x ->]. reflexivity.
  - rewrite lookup_seq_ge by lia. rewrite lookup_ge_None_2 by lia. reflexivity.
Qed.

Lemma Forall2_positions {A} (population : list A) (positions : list nat) (t : list A) :
  (fun i => population !! i) <$> positions = Some <$> t ->
  Forall2 (fun i x => population !! i = Some x) positions t.
Proof.
  revert t. induction positions as [|i ps IH]; intros [|x t]; simpl;
    try discriminate; [constructor|].
  intros [= Hi Hps]. constructor; [exact Hi|]. apply IH. exact Hps.
Qed.

(** A sample of a population that is large enough: entries at pairwise
    distinct positions. *)
Lemma random_sample_distinct {A} (population : list A) (k : nat) (g : Rng) :
  (k <= length population)%nat ->
  exists t g',
    random_sample population k g = (Ok t, g') /\
    length t = k /\ distinct_positions population t.
Proof.
  intros Hk. unfold random_sample.
  destruct (Nat.ltb_spec (length population) k) as [Hlt|_]; [lia|].
  destruct (sample_pool population k g) as [t g'] eqn:Hs.
  exists t, g'. split; [reflexivity|].
  pose proof (sample_pool_fmap (fun i => population !! i)
                (seq 0 (length population)) k g) as H1.
  pose proof (sample_pool_fmap Some population k g) as H2.
  rewrite positions_fmap, H2, Hs in H1. simpl in H1. injection H1 as Ht _.
  destruct (sample_pool_NoDup (seq 0 (length population)) k g) as (Hnd & Hlen & _).
  { apply NoDup_seq. }
  { rewrite length_seq. exact Hk. }
  split.
  - rewrite <- Hlen. rewrite <- (length_fmap Some t), Ht, length_fmap. reflexivity.
  - eexists. split; [exact Hnd|]. apply Forall2_positions. symmetry. exact Ht.
Qed.

Section Tournament.

Context {Individual U : Type}.
Variable evaluate_fitness : Individual -> Method (World U) float.
Variable fitness : Individual -> float.
Hypothesis evaluate_fitness_pure :
  forall x w, evaluate_fitness x w = (Ok (fitness x), w).

(** [max] keeps an entry that none of the entries seen exceeds. *)
Lemma max_from_highest (seen l : list Individual) (best : Individual) (w : World U) :
  best ∈ seen ->
  (forall y, y ∈ seen -> F.gtb (fitness y) (fitness best) = false) ->
  exists p,
    max_from (fun x => hook (evaluate_fitness x)) best (fitness best) l w = (Ok p, w) /\
    highest fitness (seen ++ l) p.
Proof.
  revert seen best. induction l as [|x l IH]; intros seen best Hin Hbest; simpl.
  - exists best. split; [reflexivity|]. rewrite app_nil_r. split; assumption.
  - unfold mbind, W_bind, hook. rewrite evaluate_fitness_pure.
    replace (seen ++ x :: l) with ((seen ++ [x]) ++ l)
      by (rewrite <- app_assoc; reflexivity).
    destruct (F.gtb (fitness x) (fitness best)) eqn:Hgt.
    + apply IH.
      * apply elem_of_app. right. left.
      * intros y Hy. apply elem_of_app in Hy as [Hy|Hy].
        -- apply (gtb_replaces _ (fitness best)); [exact Hgt|apply Hbest; exact Hy].
        -- apply list_elem_of_singleton in Hy as ->. apply ltb_irrefl.
    + apply IH.
      * apply elem_of_app. left. exact Hin.
      * intros y Hy. apply elem_of_app in Hy as [Hy|Hy]; [apply Hbest; exact Hy|].
        apply list_elem_of_singleton in Hy as ->. exact Hgt.
Qed.

Lemma max_key_highest (t : list Individual) (w : World U) :
  t <> [] ->
  exists p,
    max_key (fun x => hook (evaluate_fitness x)) t w = (Ok p, w) /\ highest fitness t p.
Proof.
  destruct t as [|x t]; [congruence|]. intros _. unfold max_key, mbind, W_bind, hook.
  rewrite evaluate_fitness_pure.
  destruct (max_from_highest [x] t x w) as (p & Hp & Hh).
  - left.
  - intros y Hy. apply list_elem_of_singleton in Hy as ->. apply ltb_irrefl.
  - exists p. split; [exact Hp|exact Hh].
Qed.

(** One tournament: three entries at distinct positions, the winner one
    that none of them exceeds; only the generator changes. *)
Lemma select_parent_tournament (self : GeneticStrategy Individual) (w : World U) :
  (3 <= length (population self))%nat ->
  exists t g' p,
    random_sample (population self) 3 (rng w) = (Ok t, g') /\
    length t = 3%nat /\ distinct_positions (population self) t /\
    highest fitness t p /\
    select_parent evaluate_fitness self w = (Ok p, {| rng := g'; user := user w |}).
Proof.
  intros Hlen.
  destruct (random_sample_distinct (population self) 3 (rng w) Hlen)
    as (t & g' & Hs & Ht & Hd).
  destruct (max_key_highest t {| rng := g'; user := user w |}) as (p & Hp & Hh).
  { destruct t; [discriminate Ht|discriminate]. }
  exists t, g', p. repeat (split; [assumption|]).
  unfold select_parent, mbind, W_bind, sample, with_rng_res, tournament_size.
  rewrite Hs. exact Hp.
Qed.

End Tournament.



Lemma random_sample_pool {A} (population : list A) (k : nat) (g : Rng) (t : list A) :
  (random_sample population k g).1 = Ok t -> t = (sample_pool population k g).1.
Proof.
  unfold random_sample. destruct (length population <? k)%nat; [discriminate|].
  destruct (sample_pool population k g). simpl. congruence.
Qed.


(** ** Further properties of the metric functions *)

Lemma no_trade_returns_spec (df : DataFrame) :
  no_trade_returns df
  = Ok (match df !! "trade_returns" with
        | None | Some [] => true
        | Some (_ :: _) => false
        end).
Proof.
  unfold no_trade_returns. destruct (df !! "trade_returns") as [tr|] eqn:H.
  - rewrite (in_columns_Some _ _ _ H). unfold getitem. rewrite H. simpl.
    destruct tr; reflexivity.
  - rewrite (in_columns_None _ _ H). reflexivity.
Qed.

(** The per-trade metrics and the position metric never raise, and are
    [0.0] on a record without their field (or with an empty one). *)
Theorem trade_metrics_without_field (df : DataFrame) :
  (exists v, calculate_win_rate df = Ok v) /\
  (exists v, calculate_average_trade df = Ok v) /\
  (exists v, calculate_average_position_size df = Ok v) /\
  (df !! "trade_returns" = None \/ df !! "trade_returns" = Some [] ->
   calculate_win_rate df = Ok F.zero /\ calculate_average_trade df = Ok F.zero) /\
  (df !! "position_size" = None -> calculate_average_position_size df = Ok F.zero).
Proof.
  unfold calculate_win_rate, calculate_average_trade, calculate_average_position_size.
  rewrite no_trade_returns_spec. unfold getitem.
  repeat split.
  - destruct (df !! "trade_returns") as [[|x tr]|]; simpl; eauto.
    destruct (0 <? _)%nat; eauto.
  - destruct (df !! "trade_returns") as [[|x tr]|]; simpl; eauto.
  - destruct (df !! "position_size") as [ps|] eqn:H.
    + rewrite (in_columns_Some _ _ _ H). simpl. eauto.
    + rewrite (in_columns_None _ _ H). simpl. eauto.
  - destruct H as [-> | ->]; reflexivity.
  - destruct H as [-> | ->]; reflexivity.
  - intros H. rewrite (in_columns_None _ _ H). reflexivity.
Qed.

Lemma trade_metrics_without_field_witness :
  calculate_win_rate df_no_trades = Ok F.zero /\
  calculate_average_trade df_no_trades = Ok F.zero /\
  calculate_average_position_size df_no_trades = Ok F.zero.
Proof.
  destruct (trade_metrics_without_field df_no_trades) as (_ & _ & _ & H1 & H2).
  destruct (H1 (or_introl eq_refl)) as [Hw Ha].
  split; [exact Hw|]. split; [exact Ha|]. apply H2. reflexivity.
Defined.

(** The metrics computed from [returns] raise [KeyError] exactly on a record
    without that column; the two ratios are [0.0] on fewer than two returns. *)
Theorem returns_metrics_need_returns (df : DataFrame) :
  (df !! "returns" = None ->
   calculate_sharpe_ratio df = Raise (KeyError "returns") /\
   calculate_sortino_ratio df = Raise (KeyError "returns") /\
   calculate_max_drawdown df = Raise (KeyError "returns")) /\
  (forall returns, df !! "returns" = Some returns ->
   (exists v, calculate_sharpe_ratio df = Ok v) /\
   (exists v, calculate_sortino_ratio df = Ok v) /\
   (exists v, calculate_max_drawdown df = Ok v) /\
   ((length returns < 2)%nat ->
    calculate_sharpe_ratio df = Ok F.zero /\ calculate_sortino_ratio df = Ok F.zero)).
Proof.
  unfold calculate_sharpe_ratio, calculate_sortino_ratio, calculate_max_drawdown, getitem.
  split.
  - intros ->. repeat split.
  - intros returns ->. simpl. repeat split.
    + destruct (length returns <? 2)%nat; eauto.
    + destruct (length returns <? 2)%nat; eauto.
      destruct (length _ =? 0)%nat; eauto.
    + eauto.
    + apply Nat.ltb_lt in H. rewrite H. reflexivity.
    + apply Nat.ltb_lt in H. rewrite H. reflexivity.
Qed.

Lemma returns_metrics_need_returns_witness :
  calculate_max_drawdown ∅ = Raise (KeyError "returns") /\
  calculate_sharpe_ratio {[ "returns" := [F.one] ]} = Ok F.zero.
Proof.
  split.
  - apply (proj1 (returns_metrics_need_returns ∅)). reflexivity.
  - apply (proj2 (returns_metrics_need_returns {[ "returns" := [F.one] ]}) [F.one]).
    + reflexivity.
    + simpl. lia.
Defined.

(** Without a negative return the Sortino ratio is infinite, whatever the
    returns are. *)
Theorem sortino_without_downside (df : DataFrame) (returns : Series) :
  df !! "returns" = Some returns -> (2 <= length returns)%nat ->
  (forall x, In x returns -> F.ltb x F.zero = false) ->
  calculate_sortino_ratio df = Ok F.inf.
Proof.
  intros H Hlen Hpos. unfold calculate_sortino_ratio, getitem. rewrite H. simpl.
  destruct (Nat.ltb_spec (length returns) 2) as [Hlt|_]; [lia|].
  unfold Series_lt. rewrite boolean_index_filter, (filter_none _ returns Hpos).
  reflexivity.
Qed.

Lemma sortino_without_downside_witness :
  calculate_sortino_ratio {[ "returns" := [F.one; F.zero; F.half] ]} = Ok F.inf.
Proof.
  apply (sortino_without_downside _ [F.one; F.zero; F.half]).
  - reflexivity.
  - simpl. lia.
  - intros x [<-|[<-|[<-|[]]]]; reflexivity.
Defined.

Lemma sub_zero (x : float) : F.sub x F.zero = x.
Proof. destruct x as [[]|[]| |]; reflexivity. Qed.

(** On at least two returns, the module's Sortino ratio is the one of the
    class [Metrics] at a risk-free rate of zero. *)
Theorem sortino_implementations_agree (df : DataFrame) (returns : Series) :
  df !! "returns" = Some returns -> (2 <= length returns)%nat ->
  calculate_sortino_ratio df = Ok (Metrics_calculate_sortino_ratio returns F.zero).
Proof.
  intros H Hlen. unfold calculate_sortino_ratio, Metrics_calculate_sortino_ratio, getitem.
  rewrite H. simpl.
  destruct (Nat.ltb_spec (length returns) 2) as [Hlt|_]; [lia|].
  assert (Hid : map (fun x => F.sub x F.zero) returns = returns).
  { clear. induction returns as [|x l IH]; simpl; [reflexivity|].
    rewrite sub_zero, IH. reflexivity. }
  rewrite Hid. destruct (length _ =? 0)%nat; reflexivity.
Qed.

Lemma sortino_implementations_agree_witness :
  calculate_sortino_ratio {[ "returns" := [F.one; F.opp F.one; F.opp F.half] ]}
  = Ok (Metrics_calculate_sortino_ratio [F.one; F.opp F.one; F.opp F.half] F.zero).
Proof.
  apply sortino_implementations_agree; [reflexivity|simpl; lia].
Defined.

(** On a record with trades the module's profit factor is the one of the
    class [Metrics]; on an empty series of trades they differ: the class
    gives infinity, the module [0.0]. *)
Theorem profit_factor_implementations (df : DataFrame) (tr : Series) :
  df !! "trade_returns" = Some tr ->
  (tr <> [] -> calculate_profit_factor df = Ok (Metrics_calculate_profit_factor tr)) /\
  (tr = [] -> calculate_profit_factor df = Ok F.zero /\
              Metrics_calculate_profit_factor tr = F.inf).
Proof.
  intros H. split.
  - intros Hne. rewrite (profit_factor_nonempty df tr H Hne).
    unfold Metrics_calculate_profit_factor. cbv zeta.
    destruct (F.neb _ F.zero); reflexivity.
  - intros ->. split; [apply profit_factor_guard_true; auto|reflexivity].
Qed.

Lemma profit_factor_implementations_witness :
  calculate_profit_factor {[ "trade_returns" := [F.one; F.opp F.half] ]}
  = Ok (Metrics_calculate_profit_factor [F.one; F.opp F.half]) /\
  Metrics_calculate_profit_factor [F.one; F.opp F.half] = F.of_Z 2.
Proof.
  split; [|reflexivity].
  refine (proj1 (profit_factor_implementations
                   {[ "trade_returns" := [F.one; F.opp F.half] ]}
                   [F.one; F.opp F.half] _) _); [reflexivity|discriminate].
Defined.

Lemma dropna_id (s : Series) :
  (forall x, In x s -> F.is_nan x = false) -> dropna s = s.
Proof.
  unfold dropna. induction s as [|x s IH]; intros H; simpl; [reflexivity|].
  rewrite (H x) by (left; reflexivity). simpl. f_equal. apply IH.
  intros y Hy. apply H. right. exact Hy.
Qed.

(** On trades without NaN the module's win rate is the one of the class
    [Metrics]. *)
Theorem win_rate_implementations_agree (df : DataFrame) (tr : Series) :
  df !! "trade_returns" = Some tr -> tr <> [] ->
  (forall x, In x tr -> F.is_nan x = false) ->
  calculate_win_rate df = Ok (Metrics_calculate_win_rate tr).
Proof.
  intros H Hne Hnan. unfold calculate_win_rate, Metrics_calculate_win_rate.
  rewrite no_trade_returns_spec, H. unfold getitem. rewrite H.
  destruct tr as [|x tr]; [congruence|]. cbn [mbind Res_bind].
  rewrite (dropna_id _ Hnan). reflexivity.
Qed.

Lemma win_rate_implementations_agree_witness :
  calculate_win_rate {[ "trade_returns" := [F.one; F.opp F.half] ]}
  = Ok (Metrics_calculate_win_rate [F.one; F.opp F.half]) /\
  Metrics_calculate_win_rate [F.one; F.opp F.half] = F.half.
Proof.
  split; [|reflexivity].
  apply win_rate_implementations_agree; [reflexivity|discriminate|].
  intros x [<-|[<-|[]]]; reflexivity.
Defined.

Lemma abs_opp (x : float) : F.abs (F.opp x) = F.abs x.
Proof. destruct x; reflexivity. Qed.

(** The average position size does not see the direction of the
    positions: changing the sign of every position leaves it as it is. *)
Theorem average_position_size_ignores_sign (df : DataFrame) (ps : Series) :
  calculate_average_position_size (<["position_size" := map F.opp ps]> df)
  = calculate_average_position_size (<["position_size" := ps]> df).
Proof.
  unfold calculate_average_position_size, getitem.
  rewrite !(in_columns_Some _ "position_size" _ (lookup_insert_eq _ _ _)).
  rewrite !lookup_insert_eq. simpl. unfold Series_abs. rewrite map_map.
  do 2 f_equal. apply map_ext. intros x. apply abs_opp.
Qed.

Lemma ltb_abs_zero (x : float) : F.ltb (F.abs x) F.zero = false.
Proof. destruct x as [s|s| |s m e]; reflexivity. Qed.

(** The maximal drawdown is a magnitude: it is never below zero. *)
Theorem max_drawdown_not_negative (df : DataFrame) (v : float) :
  calculate_max_drawdown df = Ok v -> F.ltb v F.zero = false.
Proof.
  unfold calculate_max_drawdown, getitem. destruct (df !! "returns"); [|discriminate].
  simpl. intros [= <-]. apply ltb_abs_zero.
Qed.

Lemma max_drawdown_not_negative_witness :
  F.ltb F.half F.zero = false.
Proof.
  apply (max_drawdown_not_negative {[ "returns" := [F.of_Z 99; F.opp F.half] ]}).
  reflexivity.
Defined.

(** [Metrics.calculate_max_drawdown] keeps the sign: zero on prices that
    never fall, [-0.5] on prices that end at half of their peak. *)
Theorem Metrics_max_drawdown_signed (prices : Series) :
  (prices <> [] -> Forall finite_nonzero prices -> nondecreasing prices ->
   is_zero (Metrics_calculate_max_drawdown prices) = true) /\
  (forall rise m e,
     prices = rise ++ [S754_finite false m e] ->
     List.last rise F.nan = S754_finite false m (e + 1) -> rise <> [] ->
     Forall finite_nonzero rise -> nondecreasing rise ->
     bounded F.prec F.emax m e = true ->
     Metrics_calculate_max_drawdown prices = neg_half).
Proof.
  split.
  - intros Hne Hf Hm.
    pose proof (spec_drawdowns_monotone prices Hf Hm) as Hz.
    unfold Metrics_calculate_max_drawdown. fold (spec_drawdowns prices).
    assert (Hne' : spec_drawdowns prices <> []).
    { unfold spec_drawdowns. rewrite (expanding_max_monotone prices Hf Hm).
      destruct prices; [congruence|discriminate]. }
    pose proof (Series_min_all_zero _ Hne' Hz) as Habs.
    destruct (Series_min (spec_drawdowns prices)); try discriminate Habs; reflexivity.
  - intros rise m e -> Hl Hne Hf Hm Hb.
    unfold Metrics_calculate_max_drawdown.
    rewrite (expanding_max_rise_then rise (S754_finite false m (e + 1))
               (S754_finite false m e)); auto.
    2:{ unfold F.ltb, SFltb, SFcompare.
        rewrite (proj2 (Z.compare_gt_iff (e + 1) e)) by lia. reflexivity. }
    rewrite zip_with_app by reflexivity. cbn [zip_with].
    rewrite (sub_half_peak m e Hb), div_neg_half.
    apply Series_min_zeros_then.
    + destruct rise; [congruence|discriminate].
    + clear Hl Hne Hm. induction Hf as [|x c Hx Hc IH]; [constructor|].
      cbn [zip_with]. constructor; [apply spec_drawdown_self; exact Hx|exact IH].
Qed.

Lemma Metrics_max_drawdown_signed_witness :
  is_zero (Metrics_calculate_max_drawdown [F.one; F.of_Z 2; F.of_Z 2]) = true /\
  Metrics_calculate_max_drawdown [F.of_Z 100; F.of_Z 50] = neg_half.
Proof.
  split.
  - apply (proj1 (Metrics_max_drawdown_signed [F.one; F.of_Z 2; F.of_Z 2])).
    + discriminate.
    + repeat constructor.
    + intros [|[|[|i]]] x y Hx Hy; vm_compute in Hx, Hy; try discriminate;
        injection Hx as <-; injection Hy as <-; reflexivity.
  - apply (proj2 (Metrics_max_drawdown_signed [F.of_Z 100; F.of_Z 50])
             [F.of_Z 100] 7036874417766400%positive (-47)).
    + reflexivity.
    + reflexivity.
    + discriminate.
    + repeat constructor.
    + intros [|i] x y Hx Hy; vm_compute in Hx, Hy; discriminate.
    + reflexivity.
Defined.

(** ** Further properties of [calculate_metrics] *)

(** [calculate_metrics] asks for a strategy that has run: without data, or
    with data without a [Signal] column, it raises before it touches the
    instance, whatever the metrics asked for; and it needs [Close] to derive
    the returns when there are none. *)
Theorem calculate_metrics_requires_run (registry : Registry)
    (metrics_list : option (list string)) (self : BaseStrategy) :
  (data self = None \/ (exists df, data self = Some df /\ df !! "Signal" = None) ->
   calculate_metrics_with registry metrics_list self
   = (Raise (ValueError "Strategy must be run before calculating metrics"), self)) /\
  (forall df signal,
     data self = Some df -> df !! "Signal" = Some signal ->
     df !! "Returns" = None -> df !! "Close" = None ->
     calculate_metrics_with registry metrics_list self = (Raise (KeyError "Close"), self)).
Proof.
  unfold calculate_metrics_with. split.
  - intros [->|(df & -> & H)]; [reflexivity|].
    rewrite (in_columns_None _ _ H). reflexivity.
  - intros df signal -> Hs Hr Hc. rewrite (in_columns_Some _ _ _ Hs). simpl.
    unfold add_return_columns. rewrite (in_columns_None _ _ Hr). simpl.
    unfold getitem. rewrite Hc. reflexivity.
Qed.

Lemma calculate_metrics_requires_run_witness :
  calculate_metrics None (BaseStrategy_init "X")
  = (Raise (ValueError "Strategy must be run before calculating metrics"),
     BaseStrategy_init "X") /\
  calculate_metrics (Some ["sharpe_ratio"])
    (with_data (BaseStrategy_init "X") {[ "Signal" := [F.one] ]})
  = (Raise (KeyError "Close"),
     with_data (BaseStrategy_init "X") {[ "Signal" := [F.one] ]}).
Proof.
  split.
  - apply (proj1 (calculate_metrics_requires_run AVAILABLE_METRICS None
                    (BaseStrategy_init "X"))).
    left. reflexivity.
  - apply (proj2 (calculate_metrics_requires_run AVAILABLE_METRICS
                    (Some ["sharpe_ratio"])
                    (with_data (BaseStrategy_init "X") {[ "Signal" := [F.one] ]}))
             {[ "Signal" := [F.one] ]} [F.one]); reflexivity.
Defined.

(** The derived columns are added once: existing columns are never
    replaced, both derived columns are present afterwards, and a second
    pass changes nothing. *)
Theorem add_return_columns_once (df df' : DataFrame) :
  add_return_columns df = Ok df' ->
  (forall col s, df !! col = Some s -> df' !! col = Some s) /\
  in_columns "Returns" df' = true /\
  in_columns "Strategy_Returns" df' = true /\
  add_return_columns df' = Ok df'.
Proof.
  unfold add_return_columns.
  destruct (df !! "Returns") as [r|] eqn:Hr.
  - rewrite (in_columns_Some _ _ _ Hr). simpl.
    destruct (df !! "Strategy_Returns") as [sr|] eqn:Hsr.
    + rewrite (in_columns_Some _ _ _ Hsr). simpl. intros [= <-].
      repeat (rewrite ?(in_columns_Some _ _ _ Hr), ?(in_columns_Some _ _ _ Hsr); simpl).
      auto.
    + rewrite (in_columns_None _ _ Hsr). simpl. unfold getitem.
      destruct (df !! "Signal") as [sg|] eqn:Hsg; [|discriminate]. simpl.
      rewrite Hr. simpl. intros [= <-].
      assert (H1 : in_columns "Returns"
                     (<["Strategy_Returns" := zip_with F.mul (shift1 sg) r]> df) = true).
      { apply (in_columns_Some _ _ r). rewrite lookup_insert_ne by discriminate.
        exact Hr. }
      assert (H2 : in_columns "Strategy_Returns"
                     (<["Strategy_Returns" := zip_with F.mul (shift1 sg) r]> df) = true).
      { eapply in_columns_Some. apply lookup_insert_eq. }
      repeat (rewrite ?H1, ?H2; simpl). split; [|auto].
      intros col s Hcol. destruct (decide (col = "Strategy_Returns")) as [->|Hne];
        [congruence|]. rewrite lookup_insert_ne by congruence. exact Hcol.
  - rewrite (in_columns_None _ _ Hr). simpl. unfold getitem.
    destruct (df !! "Close") as [cl|] eqn:Hcl; [|discriminate]. simpl.
    set (df1 := <["Returns" := pct_change cl]> df).
    assert (Hr1 : df1 !! "Returns" = Some (pct_change cl)) by apply lookup_insert_eq.
    assert (Hkeep : forall col s, df !! col = Some s -> df1 !! col = Some s).
    { intros col s Hcol. destruct (decide (col = "Returns")) as [->|Hne]; [congruence|].
      unfold df1. rewrite lookup_insert_ne by congruence. exact Hcol. }
    destruct (df1 !! "Strategy_Returns") as [sr|] eqn:Hsr.
    + rewrite (in_columns_Some _ _ _ Hsr). simpl. intros [= <-].
      repeat (rewrite ?(in_columns_Some _ _ _ Hr1), ?(in_columns_Some _ _ _ Hsr); simpl).
      auto.
    + rewrite (in_columns_None _ _ Hsr). simpl.
      destruct (df1 !! "Signal") as [sg|] eqn:Hsg; [|discriminate]. simpl.
      rewrite Hr1. simpl. intros [= <-].
      assert (H1 : in_columns "Returns"
                     (<["Strategy_Returns" := zip_with F.mul (shift1 sg) (pct_change cl)]>
                        df1) = true).
      { apply (in_columns_Some _ _ (pct_change cl)).
        rewrite lookup_insert_ne by discriminate. exact Hr1. }
      assert (H2 : in_columns "Strategy_Returns"
                     (<["Strategy_Returns" := zip_with F.mul (shift1 sg) (pct_change cl)]>
                        df1) = true).
      { eapply in_columns_Some. apply lookup_insert_eq. }
      repeat (rewrite ?H1, ?H2; simpl). split; [|auto].
      intros col s Hcol. destruct (decide (col = "Strategy_Returns")) as [->|Hne].
      * apply Hkeep in Hcol. congruence.
      * rewrite lookup_insert_ne by congruence. apply Hkeep. exact Hcol.
Qed.

Lemma add_return_columns_once_witness :
  exists df',
    add_return_columns {[ "Signal" := [F.one; F.one]; "Close" := [F.one; F.half] ]}
    = Ok df' /\
    df' !! "Close" = Some [F.one; F.half] /\
    add_return_columns df' = Ok df'.
Proof.
  destruct (add_return_columns
              {[ "Signal" := [F.one; F.one]; "Close" := [F.one; F.half] ]})
    as [df'|e] eqn:H; [|vm_compute in H; discriminate H].
  exists df'. split; [reflexivity|].
  destruct (add_return_columns_once _ _ H) as (Hkeep & _ & _ & Hagain).
  split; [|exact Hagain]. apply Hkeep. reflexivity.
Defined.

(** The loop over the metrics, for metric objects that carry the
    attributes it reads and whose columns are present: it stores one entry
    per metric asked for, the value of the metric function or [None] when
    that function raised, goes on after such a failure, and changes nothing
    else. *)
Theorem calculate_metrics_loop_stores (registry : Registry)
    (metrics_list : list string) (self : BaseStrategy) (df : DataFrame) :
  data self = Some df ->
  (forall name, In name metrics_list ->
     exists metric cols f,
       registry_get registry name = Some metric /\
       getattr metric "requires" = Ok (AColumns cols) /\
       (forall col, In col cols -> in_columns col df = true) /\
       getattr metric "function" = Ok (AFunction f)) ->
  exists self',
    calculate_metrics_loop registry metrics_list self = (Ok (), self') /\
    data self' = Some df /\
    (forall name metric f,
       In name metrics_list -> registry_get registry name = Some metric ->
       getattr metric "function" = Ok (AFunction f) ->
       performance_metrics self' !! name
       = Some (match f df with Ok v => Some v | Raise _ => None end)) /\
    (forall name, ~ In name metrics_list ->
       performance_metrics self' !! name = performance_metrics self !! name).
Proof.
  revert self. induction metrics_list as [|name rest IH]; intros self Hdata Hreg.
  - exists self. simpl. repeat split; [exact Hdata|]. intros name metric f [].
  - destruct (Hreg name (or_introl eq_refl)) as (metric & cols & f & Hget & Hreq & Hcols & Hfun).
    assert (Hstep : calculate_metric registry name self
                    = (Ok (), with_metric self name
                                (match f df with Ok v => Some v | Raise _ => None end))).
    { unfold calculate_metric. rewrite Hget, Hreq, Hdata. simpl.
      assert (Hnone : List.filter (fun col => negb (in_columns col df)) cols = []).
      { apply filter_none. intros col Hin. rewrite (Hcols col Hin). reflexivity. }
      rewrite Hnone, Hfun. simpl. destruct (f df); reflexivity. }
    destruct (IH (with_metric self name
                    (match f df with Ok v => Some v | Raise _ => None end)))
      as (self' & Hloop & Hdata' & Hstored & Hother).
    { exact Hdata. }
    { intros n Hn. apply Hreg. right. exact Hn. }
    exists self'. simpl. rewrite Hstep. split; [exact Hloop|].
    split; [exact Hdata'|]. split.
    + intros n m g Hin Hgetn Hfunn.
      destruct (in_dec string_dec n rest) as [Hr|Hr].
      * apply (Hstored n m g Hr Hgetn Hfunn).
      * destruct Hin as [<-|Hin]; [|contradiction].
        rewrite (Hother name Hr). simpl. rewrite lookup_insert_eq.
        assert (m = metric) by congruence. subst m.
        assert (AFunction g = AFunction f) by congruence.
        assert (g = f) by congruence. subst g. reflexivity.
    + intros n Hn. rewrite (Hother n) by tauto. simpl.
      apply lookup_insert_ne. intros ->. apply Hn. left. reflexivity.
Qed.

Lemma calculate_metrics_loop_stores_witness :
  exists self',
    calculate_metrics_loop registry_as_read ["win_rate"]
      (with_data (BaseStrategy_init "X") {[ "trade_returns" := [F.one; F.opp F.half] ]})
    = (Ok (), self') /\
    performance_metrics self' !! "win_rate" = Some (Some F.half).
Proof.
  destruct (calculate_metrics_loop_stores registry_as_read ["win_rate"]
              (with_data (BaseStrategy_init "X")
                 {[ "trade_returns" := [F.one; F.opp F.half] ]})
              {[ "trade_returns" := [F.one; F.opp F.half] ]} eq_refl)
    as (self' & Hloop & _ & Hstored & _).
  - intros name [<-|[]]. eexists. exists ["trade_returns"], calculate_win_rate.
    split; [reflexivity|]. split; [reflexivity|]. split; [|reflexivity].
    intros col [<-|[]]. reflexivity.
  - exists self'. split; [exact Hloop|].
    rewrite (Hstored "win_rate" _ calculate_win_rate (or_introl eq_refl) eq_refl eq_refl).
    reflexivity.
Defined.

(** ** Further properties of the optimizers *)

(** The four objectives of the registry. *)
Lemma registered_objective (obj : string) :
  registry_get OPTIMIZATION_OBJECTIVES obj <> None ->
  obj = "sharpe_ratio" \/ obj = "sortino_ratio" \/ obj = "max_drawdown"
  \/ obj = "profit_factor".
Proof.
  unfold OPTIMIZATION_OBJECTIVES. cbn [registry_get].
  destruct (String.eqb_spec "sharpe_ratio" obj) as [<-|_]; [auto|].
  destruct (String.eqb_spec "sortino_ratio" obj) as [<-|_]; [auto|].
  destruct (String.eqb_spec "max_drawdown" obj) as [<-|_]; [auto|].
  destruct (String.eqb_spec "profit_factor" obj) as [<-|_]; [auto|].
  congruence.
Qed.

Lemma check_objectives_raised (objs : list string) (e : Exn) :
  fold_left
    (fun acc obj =>
       _ ← acc;
       match registry_get OPTIMIZATION_OBJECTIVES obj with
       | None => Raise (ValueError ("Unknown optimization objective: " +:+ obj))
       | Some _ => Ok ()
       end) objs (Raise e)
  = Raise e.
Proof. induction objs as [|obj objs IH]; [reflexivity|exact IH]. Qed.

Lemma check_objectives_cons (obj : string) (objs : list string) :
  check_objectives (obj :: objs)
  = match registry_get OPTIMIZATION_OBJECTIVES obj with
    | None => Raise (ValueError ("Unknown optimization objective: " +:+ obj))
    | Some _ => check_objectives objs
    end.
Proof.
  unfold check_objectives. cbn [fold_left mbind Res_bind].
  destruct (registry_get OPTIMIZATION_OBJECTIVES obj); [reflexivity|].
  apply check_objectives_raised.
Qed.

Lemma check_objectives_known (objs : list string) :
  Forall (fun obj => registry_get OPTIMIZATION_OBJECTIVES obj <> None) objs ->
  check_objectives objs = Ok ().
Proof.
  induction 1 as [|obj objs Hobj _ IH]; [reflexivity|].
  rewrite check_objectives_cons.
  destruct (registry_get OPTIMIZATION_OBJECTIVES obj); [exact IH|congruence].
Qed.

Lemma check_objectives_unknown (known rest : list string) (unknown : string) :
  Forall (fun obj => registry_get OPTIMIZATION_OBJECTIVES obj <> None) known ->
  registry_get OPTIMIZATION_OBJECTIVES unknown = None ->
  check_objectives (known ++ unknown :: rest)
  = Raise (ValueError ("Unknown optimization objective: " +:+ unknown)).
Proof.
  intros Hknown Hunknown.
  induction Hknown as [|obj objs Hobj _ IH]; cbn [app]; rewrite check_objectives_cons.
  - rewrite Hunknown. reflexivity.
  - destruct (registry_get OPTIMIZATION_OBJECTIVES obj); [exact IH|congruence].
Qed.

(** The constructors of the two optimizers accept exactly the objectives of
    the registry: an unknown name is a [ValueError] that names it (the first
    unknown one of a list), an empty list of objectives is a [ValueError], and
    a list of known objectives is stored with its first one as the objective
    of the parent class. *)
Theorem optimizer_init_checks_objectives (sc : StrategyClass) (symbol : string) :
  (forall name am,
     registry_get OPTIMIZATION_OBJECTIVES name = None ->
     StrategyOptimizer_init sc symbol name am
     = Raise (ValueError ("Unknown optimization objective: " +:+ name))) /\
  (forall name am,
     registry_get OPTIMIZATION_OBJECTIVES name <> None ->
     exists self,
       StrategyOptimizer_init sc symbol name am = Ok self /\
       objective_name self = name /\
       registry_get OPTIMIZATION_OBJECTIVES name = Some (objective_function self) /\
       additional_metrics self = default [] am) /\
  MultiObjectiveOptimizer_init sc symbol []
  = Raise (ValueError "At least one objective must be specified") /\
  (forall known unknown rest,
     Forall (fun obj => registry_get OPTIMIZATION_OBJECTIVES obj <> None) known ->
     registry_get OPTIMIZATION_OBJECTIVES unknown = None ->
     MultiObjectiveOptimizer_init sc symbol (known ++ unknown :: rest)
     = Raise (ValueError ("Unknown optimization objective: " +:+ unknown))) /\
  (forall first rest,
     Forall (fun obj => registry_get OPTIMIZATION_OBJECTIVES obj <> None) (first :: rest) ->
     exists self,
       MultiObjectiveOptimizer_init sc symbol (first :: rest) = Ok self /\
       objectives self = first :: rest /\
       objective_name (parent self) = first).
Proof.
  split; [|split; [|split; [|split]]].
  - intros name am H. unfold StrategyOptimizer_init. rewrite H. reflexivity.
  - intros name am H. unfold StrategyOptimizer_init.
    destruct (registry_get OPTIMIZATION_OBJECTIVES name) as [o|]; [|congruence].
    eexists. repeat split.
  - reflexivity.
  - intros known unknown rest Hknown Hunknown. unfold MultiObjectiveOptimizer_init.
    rewrite (check_objectives_unknown known rest unknown Hknown Hunknown).
    destruct known; reflexivity.
  - intros first rest Hall. unfold MultiObjectiveOptimizer_init.
    rewrite (check_objectives_known _ Hall). cbn [mbind Res_bind].
    unfold StrategyOptimizer_init. inversion Hall as [|? ? Hfirst _]; subst.
    destruct (registry_get OPTIMIZATION_OBJECTIVES first) as [o|]; [|congruence].
    cbn [mbind Res_bind]. eexists. repeat split.
Qed.

Lemma optimizer_init_checks_objectives_witness :
  StrategyOptimizer_init failing_strategy "X" "calmar" None
  = Raise (ValueError "Unknown optimization objective: calmar") /\
  MultiObjectiveOptimizer_init failing_strategy "X" ["sharpe_ratio"; "calmar"; "omega"]
  = Raise (ValueError "Unknown optimization objective: calmar") /\
  exists self,
    MultiObjectiveOptimizer_init failing_strategy "X" ["max_drawdown"; "sharpe_ratio"]
    = Ok self /\ objective_name (parent self) = "max_drawdown".
Proof.
  destruct (optimizer_init_checks_objectives failing_strategy "X")
    as (H1 & _ & _ & H4 & H5).
  split; [apply H1; reflexivity|]. split.
  - apply (H4 ["sharpe_ratio"] "calmar" ["omega"]); [|reflexivity].
    repeat constructor. discriminate.
  - destruct (H5 "max_drawdown" ["sharpe_ratio"]) as (self & Hself & _ & Hname).
    + repeat constructor; discriminate.
    + exists self. split; assumption.
Defined.

(** The directions of a multi-objective study follow the polarity of the
    objectives: [minimize] for the maximal drawdown, [maximize] for the
    others, one direction per objective. *)
Theorem directions_follow_polarity (objs : list string) :
  Forall (fun obj => registry_get OPTIMIZATION_OBJECTIVES obj <> None) objs ->
  directions_of objs
  = Ok (map (fun obj => if String.eqb obj "max_drawdown" then "minimize" else "maximize")
          objs).
Proof.
  induction 1 as [|obj objs Hobj _ IH]; [reflexivity|].
  cbn [directions_of map]. rewrite IH.
  destruct (registered_objective obj Hobj) as [-> | [-> | [-> | ->]]]; reflexivity.
Qed.

Lemma directions_follow_polarity_witness :
  directions_of ["profit_factor"; "max_drawdown"] = Ok ["maximize"; "minimize"].
Proof.
  apply (directions_follow_polarity ["profit_factor"; "max_drawdown"]).
  repeat constructor; discriminate.
Defined.

Section ObjectiveProperties.

Variable suggest : nat -> string -> string -> list PyVal -> Res PyVal.

Lemma Strategy_calculate_metrics_raises (name : string) (rest : list string)
    (s : Strategy) :
  exists e s', Strategy_calculate_metrics (Some (name :: rest)) s = (Raise e, s').
Proof.
  unfold Strategy_calculate_metrics.
  destruct (calculate_metrics_raises (base s) name rest) as (e & b & H & _).
  rewrite H. eauto.
Qed.

(** The parameters of a trial: one per bound of the strategy, under the
    same names and in the same order, each bound of one of the three kinds. *)
Lemma suggest_all_keys (t : Trial) (bounds : list (string * (string * list PyVal)))
    (params : Parameters) :
  suggest_all suggest t bounds = Ok params ->
  map fst params = map fst bounds /\
  Forall (fun b => In b.2.1 ["int"; "float"; "categorical"]) bounds.
Proof.
  revert params. induction bounds as [|[name [ty vals]] rest IH]; intros params; simpl.
  - intros [= <-]. split; [reflexivity|constructor].
  - destruct (String.eqb_spec ty "int") as [->|_];
      [|destruct (String.eqb_spec ty "float") as [->|_];
        [|destruct (String.eqb_spec ty "categorical") as [->|_]; [|discriminate]]].
    all: match goal with
         | |- (?m ≫= _) = _ -> _ => destruct m as [v|]; [|discriminate]
         end; simpl;
      destruct (suggest_all suggest t rest) as [ps|] eqn:Hrest; [|discriminate];
      simpl; intros [= <-]; destruct (IH ps eq_refl) as [Hk Hf];
      (split; [simpl; f_equal; exact Hk|constructor; [simpl; auto|exact Hf]]).
Qed.

End ObjectiveProperties.

(** [create_trial_params] gives every bound of the strategy a value, under
    its name and in the order of the bounds; a bound of a kind other than
    [int], [float] and [categorical] makes it fail. *)
Theorem create_trial_params_keys
    (suggest : nat -> string -> string -> list PyVal -> Res PyVal)
    (self : StrategyOptimizer) (t : Trial) (params : Parameters) :
  create_trial_params suggest self t = Ok params ->
  exists strategy bounds,
    construct (strategy_class self) (opt_symbol self) = Ok strategy /\
    get_optimization_bounds (strategy_class self) strategy = Ok bounds /\
    map fst params = map fst bounds /\
    Forall (fun b => In b.2.1 ["int"; "float"; "categorical"]) bounds.
Proof.
  unfold create_trial_params.
  destruct (construct (strategy_class self) (opt_symbol self)) as [strategy|] eqn:Hc;
    [|discriminate]. cbn [mbind Res_bind].
  destruct (get_optimization_bounds (strategy_class self) strategy) as [bounds|] eqn:Hb;
    [|discriminate]. cbn [mbind Res_bind].
  intros H. destruct (suggest_all_keys suggest t bounds params H) as [Hk Hf].
  exists strategy, bounds. split; [reflexivity|]. split; [exact Hb|]. split; assumption.
Qed.

Lemma create_trial_params_keys_witness :
  exists self params,
    StrategyOptimizer_init failing_strategy "X" "sharpe_ratio" None = Ok self /\
    create_trial_params suggest_first self trial0 = Ok params /\
    map fst params = ["window"].
Proof.
  destruct (StrategyOptimizer_init failing_strategy "X" "sharpe_ratio" None)
    as [self|e] eqn:Hs; [|discriminate Hs].
  destruct (create_trial_params suggest_first self trial0) as [params|e] eqn:Hp.
  2:{ vm_compute in Hs. injection Hs as <-. vm_compute in Hp. discriminate Hp. }
  exists self, params. split; [reflexivity|]. split; [exact Hp|].
  destruct (create_trial_params_keys suggest_first self trial0 params Hp)
    as (strategy & bounds & Hc & Hb & Hk & _).
  rewrite Hk. vm_compute in Hs. injection Hs as <-.
  vm_compute in Hc. injection Hc as <-. vm_compute in Hb. injection Hb as <-.
  reflexivity.
Defined.



(** ** Further properties of the genetic engine *)

Section EngineRecords.

Context {Individual U : Type}.
Variable initialize_population : Method (World U) (list Individual).
Variable evaluate_fitness : Individual -> Method (World U) float.
Variable crossover : Individual -> Individual -> Method (World U) Individual.
Variable mutate : Individual -> Method (World U) Individual.
Variable np_argsort : list float -> list nat.
Variable np_mean : list float -> float.

(** What a generation that returns has recorded: the mean of the fitness
    scores, and the best individual, which is the one it had or the one at
    the position [np.argmax] gives. *)
Lemma generation_records (self self' : GeneticStrategy Individual) (w w' : World U) :
  generation evaluate_fitness crossover mutate np_argsort np_mean self w = (Ok self', w') ->
  exists scores w1 best_idx b,
    for_each (fun ind => hook (evaluate_fitness ind)) (population self) w = (Ok scores, w1)
    /\ np_argmax scores = Ok best_idx
    /\ population self !! best_idx = Some b
    /\ fitness_history self' = fitness_history self ++ [np_mean scores]
    /\ (best_individual self' = Some b
        \/ (best_individual self' = best_individual self
            /\ best_individual self <> None)).
Proof.
  unfold generation.
  destruct (for_each _ (population self) w) as [[scores|e] w1] eqn:Hfor; [|discriminate].
  destruct (np_argmax scores) as [best_idx|e] eqn:Hmax; [|discriminate].
  pose proof (for_each_length _ _ _ _ _ Hfor) as Hlen.
  pose proof (np_argmax_lt _ _ Hmax) as Hlt.
  destruct (lookup_lt_is_Some_2 (population self) best_idx ltac:(lia)) as [b Hb].
  unfold mbind, W_bind, mret, W_ret.
  match goal with
  | |- context [match ?m w1 with _ => _ end] => destruct (m w1) as [[better|e] w2] eqn:Eb
  end; [|discriminate].
  intros H. exists scores, w1, best_idx, b.
  split; [reflexivity|]. split; [exact Hmax|]. split; [exact Hb|].
  destruct better.
  - unfold lift in H. rewrite (proj2 (index_Ok _ _ _) Hb) in H. simpl in H.
    destruct (elites _ _ _ _) as [el|e]; [|discriminate].
    match type of H with
    | context [fill _ _ _ ?s ?np ?r ?w] =>
        destruct (fill evaluate_fitness crossover mutate s np r w) as [[l|e] w3]
    end; [|discriminate].
    injection H as <- _. simpl. auto.
  - assert (Hsome : best_individual self <> None).
    { destruct (best_individual self); [discriminate|].
      unfold mret, W_ret in Eb. discriminate Eb. }
    simpl in H. unfold lift in H.
    destruct (elites _ _ _ _) as [el|e]; [|discriminate].
    match type of H with
    | context [fill _ _ _ ?s ?np ?r ?w] =>
        destruct (fill evaluate_fitness crossover mutate s np r w) as [[l|e] w3]
    end; [|discriminate].
    injection H as <- _. simpl. auto.
Qed.

Lemma generations_loop_records (n : nat) (self self' : GeneticStrategy Individual)
    (w w' : World U) :
  generations_loop evaluate_fitness crossover mutate np_argsort np_mean n self w
  = (Ok self', w') ->
  (exists means, fitness_history self' = fitness_history self ++ means
                 /\ length means = n) /\
  ((0 < n)%nat \/ best_individual self <> None -> best_individual self' <> None).
Proof.
  revert self w. induction n as [|n IH]; intros self w; simpl.
  - intros [= <- _]. split; [exists []; rewrite app_nil_r; auto|].
    intros [H|H]; [lia|exact H].
  - unfold mbind, W_bind.
    destruct (generation evaluate_fitness crossover mutate np_argsort np_mean self w)
      as [[self1|e] w1] eqn:Hg; [|discriminate].
    intros Hl. destruct (IH _ _ Hl) as ((means & Hm & Hlen) & Hbest).
    destruct (generation_records _ _ _ _ Hg)
      as (scores & w2 & best_idx & b & _ & _ & _ & Hh & Hb).
    split.
    + exists (np_mean scores :: means). rewrite Hm, Hh, <- app_assoc. simpl.
      split; [reflexivity|]. f_equal. exact Hlen.
    + intros _. apply Hbest. right. destruct Hb as [->|[-> H]]; [discriminate|exact H].
Qed.

End EngineRecords.

(** Every generation of a run records one mean fitness: a run that
    completes leaves as many entries in [fitness_history] as it ran
    generations, after those that were there. *)
Theorem fitness_history_one_per_generation {Individual U : Type}
    (initialize_population : Method (World U) (list Individual))
    (evaluate_fitness : Individual -> Method (World U) float)
    (crossover : Individual -> Individual -> Method (World U) Individual)
    (mutate : Individual -> Method (World U) Individual)
    (np_argsort : list float -> list nat) (np_mean : list float -> float)
    (self self' : GeneticStrategy Individual) (w w' : World U) :
  evolve initialize_population evaluate_fitness crossover mutate np_argsort np_mean self w
  = (Ok self', w') ->
  exists means,
    fitness_history self' = fitness_history self ++ means /\
    length means = Z.to_nat (generations self).
Proof.
  unfold evolve, mbind, W_bind, hook.
  destruct (initialize_population w) as [[p|e] w1]; [|discriminate].
  intros H. apply generations_loop_records in H as [H _]. exact H.
Qed.

Lemma fitness_history_one_per_generation_witness :
  exists self' w',
    evolve (fixed_population [1; 2; 3; 4]) counting_fitness first_parent increment
      stable_argsort sequential_mean (GeneticStrategy_init Z 4 2 F.half F.half 1)
      (world0 0) = (Ok self', w')
    /\ length (fitness_history self') = 2%nat.
Proof.
  destruct (evolve (fixed_population [1; 2; 3; 4]) counting_fitness first_parent
              increment stable_argsort sequential_mean
              (GeneticStrategy_init Z 4 2 F.half F.half 1) (world0 0))
    as [[self'|e] w'] eqn:He; [|vm_compute in He; discriminate He].
  exists self', w'. split; [reflexivity|].
  destruct (fitness_history_one_per_generation _ _ _ _ _ _ _ _ _ _ He)
    as (means & -> & Hlen).
  simpl. exact Hlen.
Defined.

(** A generation that completes leaves a best individual: the one at the
    position [np.argmax] gives in the population it evaluated, or the best
    individual there was before. *)
Theorem best_individual_recorded {Individual U : Type}
    (evaluate_fitness : Individual -> Method (World U) float)
    (crossover : Individual -> Individual -> Method (World U) Individual)
    (mutate : Individual -> Method (World U) Individual)
    (np_argsort : list float -> list nat) (np_mean : list float -> float)
    (self self' : GeneticStrategy Individual) (w w' : World U) :
  generation evaluate_fitness crossover mutate np_argsort np_mean self w = (Ok self', w') ->
  exists scores w1 best_idx b,
    for_each (fun ind => hook (evaluate_fitness ind)) (population self) w = (Ok scores, w1)
    /\ np_argmax scores = Ok best_idx
    /\ population self !! best_idx = Some b
    /\ (best_individual self' = Some b
        \/ (best_individual self' = best_individual self
            /\ best_individual self <> None))
    /\ (best_individual self = None -> best_individual self' = Some b).
Proof.
  intros H.
  destruct (generation_records evaluate_fitness crossover mutate np_argsort np_mean
              self self' w w' H)
    as (scores & w1 & best_idx & b & Hfor & Hmax & Hb & _ & Hbest).
  exists scores, w1, best_idx, b. repeat (split; [assumption|]).
  intros Hnone. destruct Hbest as [Hbest|[_ Hbest]]; [exact Hbest|congruence].
Qed.

Lemma best_individual_recorded_witness :
  exists self' w',
    generation counting_fitness first_parent increment stable_argsort sequential_mean
      (set_population (GeneticStrategy_init Z 4 2 F.half F.half 1) [1; 2; 3; 4])
      (world0 0) = (Ok self', w')
    /\ best_individual self' = Some 3.
Proof.
  destruct (generation counting_fitness first_parent increment stable_argsort
              sequential_mean
              (set_population (GeneticStrategy_init Z 4 2 F.half F.half 1) [1; 2; 3; 4])
              (world0 0)) as [[self'|e] w'] eqn:Hg; [|vm_compute in Hg; discriminate Hg].
  exists self', w'. split; [reflexivity|].
  destruct (best_individual_recorded _ _ _ _ _ _ _ _ _ Hg)
    as (scores & w1 & best_idx & b & Hfor & Hmax & Hb & _ & Hnone).
  rewrite (Hnone eq_refl). vm_compute in Hfor. injection Hfor as <- _.
  vm_compute in Hmax. injection Hmax as <-. vm_compute in Hb. symmetry. exact Hb.
Defined.



(** [run_strategy] never returns normally.  With a best individual it
    raises [NotImplementedError] at once, without evolving; without one it
    evolves first, and an exception of [evolve] is the one it raises: for
    [GeneticStrategy] itself, the [NotImplementedError] of
    [initialize_population]. *)
Theorem run_strategy_always_raises {Individual U : Type}
    (initialize_population : Method (World U) (list Individual))
    (evaluate_fitness : Individual -> Method (World U) float)
    (crossover : Individual -> Individual -> Method (World U) Individual)
    (mutate : Individual -> Method (World U) Individual)
    (np_argsort : list float -> list nat) (np_mean : list float -> float)
    (self : GeneticStrategy Individual) (w : World U) :
  (exists e w',
     GeneticStrategy_run_strategy initialize_population evaluate_fitness crossover mutate
       np_argsort np_mean self w = (Raise e, w')) /\
  (best_individual self <> None ->
     GeneticStrategy_run_strategy initialize_population evaluate_fitness crossover mutate
       np_argsort np_mean self w
     = (Raise (NotImplementedError "Subclasses must implement run_strategy"), w)) /\
  (best_individual self = None ->
     forall e w',
       evolve initialize_population evaluate_fitness crossover mutate np_argsort np_mean
         self w = (Raise e, w') ->
       GeneticStrategy_run_strategy initialize_population evaluate_fitness crossover
         mutate np_argsort np_mean self w = (Raise e, w')) /\
  (best_individual self = None ->
     GeneticStrategy_run_strategy GeneticStrategy_initialize_population
       GeneticStrategy_evaluate_fitness GeneticStrategy_crossover GeneticStrategy_mutate
       np_argsort np_mean self w
     = (Raise (NotImplementedError "Subclasses must implement initialize_population"),
        w)).
Proof.
  unfold GeneticStrategy_run_strategy, mbind, W_bind, mret, W_ret, raise.
  split; [|split; [|split]].
  - destruct (best_individual self); [eauto|].
    destruct (evolve _ _ _ _ _ _ self w) as [[s|e] w']; eauto.
  - destruct (best_individual self); [reflexivity|congruence].
  - intros -> e w' ->. reflexivity.
  - intros ->. reflexivity.
Qed.

Lemma run_strategy_always_raises_witness :
  GeneticStrategy_run_strategy (fixed_population [1; 2; 3; 4]) counting_fitness
    first_parent increment stable_argsort sequential_mean
    (set_best_individual (GeneticStrategy_init Z 4 2 F.half F.half 1) 3) (world0 0)
  = (Raise (NotImplementedError "Subclasses must implement run_strategy"), world0 0) /\
  GeneticStrategy_run_strategy GeneticStrategy_initialize_population
    GeneticStrategy_evaluate_fitness GeneticStrategy_crossover GeneticStrategy_mutate
    stable_argsort sequential_mean (GeneticStrategy_init Z 4 2 F.half F.half 1) (world0 0)
  = (Raise (NotImplementedError "Subclasses must implement initialize_population"),
     world0 0).
Proof.
  split.
  - apply (proj1 (proj2 (run_strategy_always_raises (fixed_population [1; 2; 3; 4])
                           counting_fitness first_parent increment stable_argsort
                           sequential_mean
                           (set_best_individual
                              (GeneticStrategy_init Z 4 2 F.half F.half 1) 3)
                           (world0 0)))).
    discriminate.
  - apply (proj2 (proj2 (proj2 (run_strategy_always_raises
                                  GeneticStrategy_initialize_population
                                  GeneticStrategy_evaluate_fitness
                                  GeneticStrategy_crossover GeneticStrategy_mutate
                                  stable_argsort sequential_mean
                                  (GeneticStrategy_init Z 4 2 F.half F.half 1)
                                  (world0 0))))).
    reflexivity.
Defined.

(** ** Parameters by name *)

Lemma hasattr_lookup (self : gmap string PyVal) (key : string) (v : PyVal) :
  self !! key = Some v -> hasattr self key = true.
Proof.
  intros H. unfold hasattr. apply orb_true_iff. left.
  apply bool_decide_eq_true. eauto.
Qed.

Lemma setattr_same (self : gmap string PyVal) (key : string) (v : PyVal) :
  self !! key = Some v -> (if hasattr self key then setattr self key v else self) = self.
Proof.
  intros H. rewrite (hasattr_lookup _ _ _ H). unfold setattr. apply insert_id. exact H.
Qed.

Lemma get_parameters_Ok (self : gmap string PyVal) (P G m c E : PyVal) :
  self !! "population_size" = Some P -> self !! "generations" = Some G ->
  self !! "mutation_rate" = Some m -> self !! "crossover_rate" = Some c ->
  self !! "elite_size" = Some E ->
  GeneticStrategy_get_parameters self
  = Ok [("population_size", P); ("generations", G); ("mutation_rate", m);
        ("crossover_rate", c); ("elite_size", E)].
Proof.
  intros H1 H2 H3 H4 H5. unfold GeneticStrategy_get_parameters.
  rewrite H1, H2, H3, H4, H5. reflexivity.
Qed.

Lemma get_parameters_inv (self : gmap string PyVal) (p : Parameters) :
  GeneticStrategy_get_parameters self = Ok p ->
  exists P G m c E,
    p = [("population_size", P); ("generations", G); ("mutation_rate", m);
         ("crossover_rate", c); ("elite_size", E)] /\
    self !! "population_size" = Some P /\ self !! "generations" = Some G /\
    self !! "mutation_rate" = Some m /\ self !! "crossover_rate" = Some c /\
    self !! "elite_size" = Some E.
Proof.
  unfold GeneticStrategy_get_parameters.
  destruct (self !! "population_size") as [P|]; [|discriminate].
  destruct (self !! "generations") as [G|]; [|discriminate].
  destruct (self !! "mutation_rate") as [m|]; [|discriminate].
  destruct (self !! "crossover_rate") as [c|]; [|discriminate].
  destruct (self !! "elite_size") as [E|]; [|discriminate].
  intros [= <-]. exists P, G, m, c, E. repeat split.
Qed.

(** [get_parameters] and [set_parameters] are inverse to each other on the
    five parameters: what is set is what is read back, and setting what was
    read changes nothing; a new instance reads back the arguments of its
    constructor. *)
Theorem parameters_round_trip (self : gmap string PyVal) :
  (forall P G m c E,
     let p := [("population_size", P); ("generations", G); ("mutation_rate", m);
               ("crossover_rate", c); ("elite_size", E)] in
     (forall name, In name (map fst p) -> hasattr self name = true) ->
     GeneticStrategy_get_parameters (GeneticStrategy_set_parameters p self).2 = Ok p) /\
  (forall p,
     GeneticStrategy_get_parameters self = Ok p ->
     GeneticStrategy_set_parameters p self = (Ok (), self)) /\
  (forall symbol P G m c E,
     GeneticStrategy_get_parameters (GeneticStrategy_dict symbol P G m c E)
     = Ok [("population_size", VInt P); ("generations", VInt G);
           ("mutation_rate", VFloat m); ("crossover_rate", VFloat c);
           ("elite_size", VInt E)]).
Proof.
  split; [|split].
  - intros P G m c E p Hattr.
    assert (Hnd : NoDup (map fst p)).
    { apply NoDup_ListNoDup. repeat constructor; simpl; intuition discriminate. }
    destruct (set_parameters_loop p self Hnd) as (Hset & _ & _).
    unfold GeneticStrategy_set_parameters. cbn [snd].
    apply get_parameters_Ok; apply Hset; try (simpl; tauto);
      apply Hattr; simpl; tauto.
  - intros p Hp.
    destruct (get_parameters_inv self p Hp) as (P & G & m & c & E & -> & H1 & H2 & H3 & H4 & H5).
    unfold GeneticStrategy_set_parameters. f_equal. cbn [fold_left fst snd].
    rewrite (setattr_same _ _ _ H1), (setattr_same _ _ _ H2), (setattr_same _ _ _ H3),
      (setattr_same _ _ _ H4), (setattr_same _ _ _ H5). reflexivity.
  - intros symbol P G m c E. apply get_parameters_Ok; reflexivity.
Qed.

Lemma parameters_round_trip_witness :
  GeneticStrategy_get_parameters
    (GeneticStrategy_set_parameters
       [("population_size", VInt 10); ("generations", VInt 3);
        ("mutation_rate", VFloat F.zero); ("crossover_rate", VFloat F.one);
        ("elite_size", VInt 2)]
       (GeneticStrategy_dict "X" 100 50 F.half F.half 5)).2
  = Ok [("population_size", VInt 10); ("generations", VInt 3);
        ("mutation_rate", VFloat F.zero); ("crossover_rate", VFloat F.one);
        ("elite_size", VInt 2)].
Proof.
  apply (proj1 (parameters_round_trip (GeneticStrategy_dict "X" 100 50 F.half F.half 5))).
  intros name [<-|[<-|[<-|[<-|[<-|[]]]]]]; vm_compute; reflexivity.
Defined.



(** ** Tournaments in a population of three *)

(** As many distinct positions as the population has entries: every entry
    of the population is drawn. *)
Lemma distinct_positions_all {A} (population t : list A) :
  distinct_positions population t -> length t = length population ->
  forall y, y ∈ population -> y ∈ t.
Proof.
  intros (positions & Hnd & Hpos) Hlen y Hy.
  pose proof (Forall2_length _ _ _ Hpos) as Hlp.
  assert (Hsub : positions ⊆+ seq 0 (length population)).
  { apply NoDup_submseteq; [exact Hnd|]. intros i Hi.
    apply list_elem_of_lookup in Hi as [k Hk].
    destruct (Forall2_lookup_l _ _ _ _ _ Hpos Hk) as (x & _ & Hx).
    apply lookup_lt_Some in Hx. apply elem_of_seq. lia. }
  assert (Hperm : positions ≡ₚ seq 0 (length population)).
  { apply submseteq_length_Permutation; [exact Hsub|]. rewrite length_seq. lia. }
  apply list_elem_of_lookup in Hy as [j Hj].
  assert (Hin : j ∈ positions).
  { rewrite Hperm. apply elem_of_seq. apply lookup_lt_Some in Hj. lia. }
  apply list_elem_of_lookup in Hin as [k Hk].
  destruct (Forall2_lookup_l _ _ _ _ _ Hpos Hk) as (x & Hx & Hjx).
  rewrite Hj in Hjx. injection Hjx as ->.
  eapply list_elem_of_lookup_2. exact Hx.
Qed.

Lemma distinct_positions_elem {A} (population t : list A) (p : A) :
  distinct_positions population t -> p ∈ t -> p ∈ population.
Proof.
  intros (positions & _ & Hpos) Hp.
  apply list_elem_of_lookup in Hp as [k Hk].
  destruct (Forall2_lookup_r _ _ _ _ _ Hpos Hk) as (i & _ & Hi).
  eapply list_elem_of_lookup_2. exact Hi.
Qed.

(** In a population of exactly three individuals the tournament is the
    whole population: whatever the state of the generator, both parents are
    individuals that no individual of the population exceeds in fitness. *)
Theorem three_individuals_fittest_wins {Individual U : Type}
    (evaluate_fitness : Individual -> Method (World U) float)
    (fitness : Individual -> float)
    (self : GeneticStrategy Individual) (w : World U) :
  (forall x w, evaluate_fitness x w = (Ok (fitness x), w)) ->
  length (population self) = 3%nat ->
  exists p1 p2 g,
    select_parents evaluate_fitness self w
    = (Ok [p1; p2], {| rng := g; user := user w |}) /\
    highest fitness (population self) p1 /\
    highest fitness (population self) p2.
Proof.
  intros Hpure Hlen.
  assert (Hone : forall w0 : World U,
             exists p g,
               select_parent evaluate_fitness self w0
               = (Ok p, {| rng := g; user := user w0 |}) /\
               highest fitness (population self) p).
  { intros w0.
    destruct (select_parent_tournament evaluate_fitness fitness Hpure self w0)
      as (t & g & p & _ & Ht & Hd & [Hin Hbest] & Hsel); [lia|].
    exists p, g. split; [exact Hsel|]. split.
    - apply (distinct_positions_elem _ t); assumption.
    - intros y Hy. apply Hbest.
      apply (distinct_positions_all (population self) t Hd); [lia|exact Hy]. }
  destruct (Hone w) as (p1 & g1 & Hs1 & Hh1).
  destruct (Hone {| rng := g1; user := user w |}) as (p2 & g2 & Hs2 & Hh2).
  exists p1, p2, g2. split; [|split; assumption].
  unfold select_parents, mbind, W_bind. rewrite Hs1, Hs2. reflexivity.
Qed.

Lemma three_individuals_fittest_wins_witness :
  exists g,
    select_parents silent_fitness
      (set_population (GeneticStrategy_init Z 3 2 F.half F.half 1) [5; 3; 1])
      (world0 7)
    = (Ok [3; 3], {| rng := g; user := 0%nat |}).
Proof.
  destruct (three_individuals_fittest_wins silent_fitness peak_fitness
              (set_population (GeneticStrategy_init Z 3 2 F.half F.half 1) [5; 3; 1])
              (world0 7))
    as (p1 & p2 & g & H & _ & _).
  - intros x w. reflexivity.
  - reflexivity.
  - exists g. rewrite H. vm_compute in H. inversion H. reflexivity.
Defined.

(** ** Reproduction without crossover and mutation *)

Lemma binary_round_aux_sign (m e : Z) (l : location) :
  sign_bit_clear (binary_round_aux F.prec F.emax false m e l) = true.
Proof.
  unfold binary_round_aux.
  destruct (shr_fexp F.prec F.emax m e l) as [mrs e'].
  destruct (shr_fexp F.prec F.emax _ e' loc_Exact) as [mrs' e''].
  destruct (shr_m mrs'); [reflexivity| |reflexivity].
  destruct (e'' <=? F.emax - F.prec)%Z; reflexivity.
Qed.

Lemma of_Z_sign (z : Z) : 0 <= z -> sign_bit_clear (F.of_Z z) = true.
Proof.
  intros Hz. unfold F.of_Z, binary_normalize. destruct z as [|p|p]; [reflexivity| |lia].
  unfold binary_round. destruct (shl_align p 0 _) as [mz ez].
  apply binary_round_aux_sign.
Qed.

Lemma div_sign (x y : float) :
  sign_bit_clear x = true -> sign_bit_clear y = true -> sign_bit_clear (F.div x y) = true.
Proof.
  unfold F.div, SFdiv.
  destruct x as [[]|[]| |[] mx ex], y as [[]|[]| |[] my ey]; simpl;
    try discriminate; try reflexivity.
  intros _ _.
  destruct (SFdiv_core_binary F.prec F.emax (Z.pos mx) ex (Z.pos my) ey) as [[mz ez] lz].
  apply binary_round_aux_sign.
Qed.

(** [random()] is never below zero. *)
Lemma random_random_sign (g : Rng) : sign_bit_clear (random_random g).1 = true.
Proof.
  unfold random_random. cbn [fst]. apply div_sign; apply of_Z_sign; apply N2Z.is_nonneg.
Qed.

(** A number that is not negative is not below a rate that is not
    positive. *)
Lemma not_below_nonpositive (r rate : float) :
  sign_bit_clear r = true -> F.ltb F.zero rate = false -> F.ltb r rate = false.
Proof.
  intros Hr Hrate. destruct (F.ltb r rate) eqn:H; [|reflexivity].
  destruct r as [s|s| |s m e].
  - rewrite <- Hrate. rewrite <- H. destruct rate as [?|?| |? ? ?]; reflexivity.
  - destruct s; [discriminate Hr|]. destruct rate as [?|[]| |[] ? ?]; discriminate H.
  - destruct rate; discriminate H.
  - destruct s; [discriminate Hr|].
    rewrite <- Hrate. symmetry. apply (ltb_trans _ (S754_finite false m e)); [reflexivity|].
    exact H.
Qed.

Section Cloning.

Context {Individual U : Type}.
Variable evaluate_fitness : Individual -> Method (World U) float.
Variable crossover : Individual -> Individual -> Method (World U) Individual.
Variable mutate : Individual -> Method (World U) Individual.
Variable np_argsort : list float -> list nat.
Variable np_mean : list float -> float.

(** With rates that are not positive a child is a clone: an individual of
    the population, drawn by [random.choice]. *)
Lemma make_child_clone (self : GeneticStrategy Individual) (w w' : World U)
    (child : Individual) :
  F.ltb F.zero (crossover_rate self) = false ->
  F.ltb F.zero (mutation_rate self) = false ->
  make_child evaluate_fitness crossover mutate self w = (Ok child, w') ->
  child ∈ population self.
Proof.
  intros Hc Hm. unfold make_child, mbind, W_bind, random, with_rng, mret, W_ret.
  destruct (random_random (rng w)) as [r g] eqn:Hr.
  assert (Hrc : F.ltb r (crossover_rate self) = false).
  { apply not_below_nonpositive; [|exact Hc].
    change r with (r, g).1. rewrite <- Hr. apply random_random_sign. }
  rewrite Hrc. unfold choice, with_rng_res. cbn [rng user].
  destruct (random_choice (population self) g) as [[x|e] g1] eqn:Hch; [|discriminate].
  cbn [rng user].
  destruct (random_random g1) as [r' g2] eqn:Hr'.
  assert (Hrm : F.ltb r' (mutation_rate self) = false).
  { apply not_below_nonpositive; [|exact Hm].
    change r' with (r', g2).1. rewrite <- Hr'. apply random_random_sign. }
  rewrite Hrm. intros [= <- _].
  unfold random_choice in Hch. destruct (population self) as [|a l] eqn:Hp;
    [discriminate|].
  unfold randbelow in Hch. cbn [fst snd] in Hch.
  destruct ((a :: l) !! _) as [y|] eqn:Hy; [|discriminate].
  injection Hch as <- _. eapply list_elem_of_lookup_2. exact Hy.
Qed.

Lemma fill_clones (self : GeneticStrategy Individual) (new_population l : list Individual)
    (remaining : nat) (w w' : World U) :
  F.ltb F.zero (crossover_rate self) = false ->
  F.ltb F.zero (mutation_rate self) = false ->
  fill evaluate_fitness crossover mutate self new_population remaining w = (Ok l, w') ->
  forall x, x ∈ l -> x ∈ new_population \/ x ∈ population self.
Proof.
  intros Hc Hm. revert new_population w.
  induction remaining as [|r IH]; intros new_population w; simpl.
  - intros [= <- _] x Hx. left. exact Hx.
  - unfold mbind, W_bind.
    destruct (make_child evaluate_fitness crossover mutate self w) as [[child|e] w1] eqn:Hch;
      [|discriminate].
    intros H x Hx. destruct (IH _ _ H x Hx) as [Hin|Hin]; [|right; exact Hin].
    apply elem_of_app in Hin as [Hin|Hin]; [left; exact Hin|].
    apply list_elem_of_singleton in Hin as ->. right.
    apply (make_child_clone self w w1); assumption.
Qed.

End Cloning.

Section CloningGenerations.

Context {Individual U : Type}.
Variable evaluate_fitness : Individual -> Method (World U) float.
Variable crossover : Individual -> Individual -> Method (World U) Individual.
Variable mutate : Individual -> Method (World U) Individual.
Variable np_argsort : list float -> list nat.
Variable np_mean : list float -> float.

(** The loop that fills the next generation, as a generation that returns
    ran it: after the elites, on an instance with the same population and
    rates. *)
Lemma generation_fill (self self' : GeneticStrategy Individual) (w w' : World U) :
  generation evaluate_fitness crossover mutate np_argsort np_mean self w = (Ok self', w') ->
  exists scores self2 new_population w2,
    elites (population self) (rev (np_argsort scores)) 0 (Z.to_nat (elite_size self))
    = Ok new_population
    /\ fill evaluate_fitness crossover mutate self2 new_population
         (missing self new_population) w2 = (Ok (population self'), w')
    /\ population self2 = population self
    /\ crossover_rate self2 = crossover_rate self
    /\ mutation_rate self2 = mutation_rate self.
Proof.
  unfold generation.
  destruct (for_each _ (population self) w) as [[scores|e] w1]; [|discriminate].
  destruct (np_argmax scores) as [best_idx|e]; [|discriminate].
  unfold mbind, W_bind, mret, W_ret.
  match goal with
  | |- context [match ?m w1 with _ => _ end] => destruct (m w1) as [[better|e] w2] eqn:Eb
  end; [|discriminate].
  destruct better.
  - unfold lift. destruct (index (population self) best_idx) as [b|e]; [|discriminate].
    simpl.
    destruct (elites (population self) (rev (np_argsort scores)) 0
                (Z.to_nat (elite_size self))) as [el|e] eqn:Hel; [|discriminate].
    match goal with
    | |- context [fill _ _ _ ?s ?np ?r ?w] =>
        destruct (fill evaluate_fitness crossover mutate s np r w) as [[l|e] w3] eqn:Hf
    end; [|discriminate].
    intros [= <- <-]. eexists scores, _, el, w2.
    split; [exact Hel|]. split; [exact Hf|]. repeat split.
  - simpl. unfold lift.
    destruct (elites (population self) (rev (np_argsort scores)) 0
                (Z.to_nat (elite_size self))) as [el|e] eqn:Hel; [|discriminate].
    match goal with
    | |- context [fill _ _ _ ?s ?np ?r ?w] =>
        destruct (fill evaluate_fitness crossover mutate s np r w) as [[l|e] w3] eqn:Hf
    end; [|discriminate].
    intros [= <- <-]. eexists scores, _, el, w2.
    split; [exact Hel|]. split; [exact Hf|]. repeat split.
Qed.

End CloningGenerations.

(** With a crossover rate and a mutation rate that are not positive, a
    generation brings no new individual: every individual of the next
    generation is an individual of this one (an elite or a clone). *)
Theorem cloning_adds_no_individual {Individual U : Type}
    (evaluate_fitness : Individual -> Method (World U) float)
    (crossover : Individual -> Individual -> Method (World U) Individual)
    (mutate : Individual -> Method (World U) Individual)
    (np_argsort : list float -> list nat) (np_mean : list float -> float)
    (self self' : GeneticStrategy Individual) (w w' : World U) :
  F.ltb F.zero (crossover_rate self) = false ->
  F.ltb F.zero (mutation_rate self) = false ->
  generation evaluate_fitness crossover mutate np_argsort np_mean self w = (Ok self', w') ->
  forall x, x ∈ population self' -> x ∈ population self.
Proof.
  intros Hc Hm H x Hx.
  destruct (generation_fill _ _ _ _ _ _ _ _ _ H)
    as (scores & self2 & el & w2 & Hel & Hfill & Hp & Hc2 & Hm2).
  rewrite <- Hc2 in Hc. rewrite <- Hm2 in Hm.
  destruct (fill_clones _ _ _ self2 el _ _ w2 w' Hc Hm Hfill x Hx) as [Hin|Hin].
  - apply list_elem_of_lookup in Hin as [k Hk].
    destruct (elites_lookup _ _ _ _ _ _ _ Hel Hk) as (idx & _ & Hidx).
    eapply list_elem_of_lookup_2. exact Hidx.
  - rewrite <- Hp. exact Hin.
Qed.

Lemma cloning_adds_no_individual_witness :
  exists self' w',
    generation counting_fitness first_parent increment stable_argsort sequential_mean
      (set_population (GeneticStrategy_init Z 4 1 F.zero F.zero 1) [1; 2; 3; 4])
      (world0 5) = (Ok self', w')
    /\ forall x, x ∈ population self' -> x ∈ [1; 2; 3; 4].
Proof.
  destruct (generation counting_fitness first_parent increment stable_argsort
              sequential_mean
              (set_population (GeneticStrategy_init Z 4 1 F.zero F.zero 1) [1; 2; 3; 4])
              (world0 5)) as [[self'|e] w'] eqn:Hg; [|vm_compute in Hg; discriminate Hg].
  exists self', w'. split; [reflexivity|].
  refine (cloning_adds_no_individual _ _ _ _ _ _ _ _ _ _ _ Hg); reflexivity.
Defined.
